(** * pyoptoma: the Optoma projector serial protocol handler

    A shallow embedding of [pyoptoma/__init__.py]: the module constants, the
    frame reader of [OptomaThread] and the busy lock, [get_property] and
    [send_command] of [Projector].

    Conventions of the embedding.
    - A Python [str] is a [string]; the dictionaries of the module are
      [gmap]s keyed by strings.
    - A method of [Projector] is a computation of the monad [Eff]: it takes
      the fields of the object, and returns either a value or the exception
      it raised, together with the fields as they are at that point (a raised
      exception does not undo the assignments made before it).
    - [time.time()] is an input: every call site takes the clock reading as
      an argument [now : float] (seconds). A Python [float] is a binary64
      number, here a primitive [float]: the subtraction of two readings
      rounds as it does in the program.
    - The order in which a method assigns the lock fields and writes to the
      port is kept in the ghost field [history], which no method reads.
    - The serial port is modelled by what it is used for: the frames written
      to it are logged in the field [_serial], the bytes it delivers are the
      [list byte] a reader function consumes; a read on an exhausted input
      blocks.
    - [_thread.get_response()], seen from [Projector], is an input as well:
      [_sendrecv] takes the reply it will be handed as an argument. *)

From Stdlib Require Import ZArith QArith Floats Strings.Byte Ascii String.
From stdpp Require Import gmap strings list.

Open Scope string_scope.
Open Scope list_scope.

(** ** Python values and exceptions *)

(** The values the modelled methods return or store: [None], [True]/[False]
    and strings. *)
Inductive pyval : Type :=
  | PyNone
  | PyBool (b : bool)
  | PyStr (s : string).

Inductive exn : Type :=
  | NameError (name : string)
  | KeyError (key : pyval)
  | IndexError
  | AttributeError (attr : string)
  | UnicodeDecodeError (b : byte).

(** ** Module constants *)

Definition CR : string := String "013" EmptyString.

Definition OPTOMA_COMMANDS : gmap string string :=
  list_to_map
    [ ("TURN_ON", "~0000 1" +:+ CR);
      ("TURN_OFF", "~0000 0" +:+ CR);
      ("PWR", "~00124 1" +:+ CR);
      ("SOURCE", "~00121 1" +:+ CR);
      ("DISPLAY_MODE", "~00123 1" +:+ CR);
      ("HDMI1", "~0012 1" +:+ CR);
      ("HDMI2", "~0012 15" +:+ CR);
      ("VGA", "~0012 8" +:+ CR);
      ("COMPONENT", "~0012 14" +:+ CR);
      ("VIDEO", "~0012 10" +:+ CR);
      ("3D_OFF", "~00405 0" +:+ CR);
      ("3D_SBS", "~00405 1" +:+ CR);
      ("3D_TTB", "~00405 3" +:+ CR);
      ("3D_SEQ", "~00405 4" +:+ CR) ].

Definition SOURCE_LIST : gmap string string :=
  list_to_map
    [ ("HDMI1", "HDMI1");
      ("HDMI2", "HDMI2");
      ("VGA", "VGA");
      ("COMPONENT", "COMPONENT");
      ("VIDEO", "VIDEO") ].

Definition TIMEOUT_TIMES : gmap string Z :=
  list_to_map
    [ ("TURN_ON", 40%Z);
      ("TURN_OFF", 60%Z);
      ("SOURCE", 2%Z);
      ("ALL", 2%Z) ].

Definition SOURCE_MAP : gmap string pyval :=
  list_to_map
    [ ("OK00", PyNone);
      ("OK02", PyStr "VGA");
      ("OK05", PyStr "VIDEO");
      ("OK07", PyStr "HDMI1");
      ("OK08", PyStr "HDMI2");
      ("OK11", PyStr "COMPONENT") ].

Definition TURN_ON : string := "TURN_ON".
Definition TURN_OFF : string := "TURN_OFF".
Definition POWER : string := "PWR".
Definition SOURCE : string := "SOURCE".
Definition BUSY : string := "BUSY".

(** ** Dictionary and string primitives *)

(** [d.get(key)] on a dictionary whose values are Python values: the value,
    or [None] when the key is missing. It never raises. *)
Definition dict_get (d : gmap string pyval) (key : string) : pyval :=
  default PyNone (d !! key).

(** [d[key]] where the key is an arbitrary Python value and the keys of [d]
    are strings: a key that is not a string is not found. *)
Definition dict_getitem {V : Type} (d : gmap string V) (key : pyval) : exn + V :=
  match key with
  | PyStr k =>
      match d !! k with
      | Some v => inr v
      | None => inl (KeyError key)
      end
  | _ => inl (KeyError key)
  end.

(** [key in d]. *)
Definition dict_contains {V : Type} (d : gmap string V) (key : string) : bool :=
  bool_decide (is_Some (d !! key)).

(** [s[i]] for a non-negative index. *)
Definition str_getitem (s : string) (i : nat) : exn + ascii :=
  match String.get i s with
  | Some c => inr c
  | None => inl IndexError
  end.

(** [x > n] for a float [x] and an int [n]. Python compares the two by
    value; for an int from 0 to 2^53, such as the timeouts of the module,
    that is the comparison of [x] with the float of the same value. *)
Definition float_gt_int (x : float) (n : Z) : bool :=
  PrimFloat.ltb (PrimFloat.of_uint63 (Uint63.of_Z n)) x.

(** The rational number a finite float stands for. *)
Definition float_to_Q (x : float) : option Q :=
  match Prim2SF x with
  | S754_zero _ => Some 0%Q
  | S754_finite s m e =>
      Some ((if s then -1 else 1) * (Z.pos m # 1) * Qpower 2 e)%Q
  | _ => None
  end.

(** ** OptomaThread: the frame reader *)

(** What one call of [_readline] does on the bytes the port will deliver:
    it returns a line and leaves the rest unread, it blocks in
    [serial.read] with the text accumulated so far, or [decode] raises. *)
Inductive readline_result : Type :=
  | Line (output : string) (rest : list byte)
  | Blocked (output : string)
  | Raised (e : exn).

(** [byte.decode('utf-8')] of a single byte: the bytes below 0x80 are the
    one-byte code points, any other byte alone is not valid UTF-8. *)
Definition decode (b : byte) : exn + string :=
  if (Byte.to_N b <? 128)%N then inr (String (ascii_of_byte b) EmptyString)
  else inl (UnicodeDecodeError b).

(** The [while True] loop of [_readline], on the current value of [output]. *)
Fixpoint _readline_loop (output : string) (input : list byte) : readline_result :=
  match input with
  | [] => Blocked output
  | b :: input' =>
      if Byte.eqb b x0d then Line output input'
      else
        match (if negb (Byte.eqb b x00)
               then match decode b with
                    | inr c => inr (output +:+ c)
                    | inl e => inl e
                    end
               else inr output) with
        | inl e => Raised e
        | inr output' =>
            if String.eqb output' "INFO1" then Line output' input'
            else _readline_loop output' input'
        end
  end.

Definition _readline (input : list byte) : readline_result :=
  _readline_loop "" input.

(** The fields of the thread object, and the calls of the [notify_event]
    callback it was constructed with, oldest first. *)
Record OptomaThread : Type := mkOptomaThread {
  _lastline : option string;
  _recv_event : bool;
  notified : list string
}.

Definition OptomaThread_init : OptomaThread :=
  {| _lastline := None; _recv_event := false; notified := [] |}.

(** [len(line)==5 and line[0]=='I']; [and] evaluates [line[0]] only when the
    length test holds. *)
Definition is_event_frame (line : string) : bool :=
  if (String.length line =? 5)%nat
  then match String.get 0 line with
       | Some c => Ascii.eqb c "I"
       | None => false
       end
  else false.

(** The body of the loop of [run] after [line = self._readline()]. *)
Definition run_dispatch (line : string) (th : OptomaThread) : OptomaThread :=
  if is_event_frame line
  then {| _lastline := _lastline th;
          _recv_event := _recv_event th;
          notified := notified th ++ [line] |}
  else {| _lastline := Some line;
          _recv_event := true;
          notified := notified th |}.

(** [run], unrolled at most [fuel] times: the loop has no exit of its own,
    it stops when the read blocks or an exception ends the thread. The
    result is the thread and how the last call of [_readline] ended. *)
Fixpoint run (fuel : nat) (th : OptomaThread) (input : list byte)
  : OptomaThread * readline_result :=
  match _readline input with
  | Line line rest =>
      match fuel with
      | O => (th, Line line rest)
      | S fuel' => run fuel' (run_dispatch line th) rest
      end
  | r => (th, r)
  end.

(** [get_response]: [wait] returns only once the event is set; the event is
    then cleared and the last line returned. [None] is a blocked call. *)
Definition get_response (th : OptomaThread) : option (option string * OptomaThread) :=
  if _recv_event th
  then Some (_lastline th,
             {| _lastline := _lastline th;
                _recv_event := false;
                notified := notified th |})
  else None.

(** ** Projector *)

(** What a method does to the lock fields and to the port. *)
Inductive effect : Type :=
  | Assign_isLocked (b : bool)
  | Assign_timer (t : float)
  | Assign_operation (v : pyval)
  | Serial_write (frame : string).

(** The fields of the object that the modelled methods use: the busy lock
    and the frames written to the serial port, oldest first. [history] is
    not a field of the program: it lists the assignments to the lock fields
    and the writes to the port in the order they are executed, oldest
    first. *)
Record Projector : Type := mkProjector {
  _isLocked : bool;
  _timer : float;
  _operation : pyval;
  _serial : list string;
  history : list effect
}.

(** A method body: the final fields, and the value returned or the
    exception raised. *)
Definition Eff (A : Type) : Type := Projector → (exn + A) * Projector.

Definition ret {A : Type} (a : A) : Eff A := λ p, (inr a, p).

Definition raise {A : Type} (e : exn) : Eff A := λ p, (inl e, p).

Definition bind {A B : Type} (m : Eff A) (k : A → Eff B) : Eff B :=
  λ p, match m p with
       | (inr a, p') => k a p'
       | (inl e, p') => (inl e, p')
       end.

Definition lift {A : Type} (r : exn + A) : Eff A := λ p, (r, p).

Definition self : Eff Projector := λ p, (inr p, p).

Definition assign (f : Projector → Projector) : Eff unit := λ p, (inr tt, f p).

(** [try: body except KeyError: handler]. *)
Definition try_except_KeyError {A : Type} (body handler : Eff A) : Eff A :=
  λ p, match body p with
       | (inl (KeyError _), p') => handler p'
       | r => r
       end.

Declare Scope eff_scope.
Delimit Scope eff_scope with eff.
Notation "x <- m ;; k" := (bind m (λ x, k))
  (at level 20, m at level 99, k at level 200) : eff_scope.
Notation "m ;; k" := (bind m (λ _, k))
  (at level 100, k at level 200, right associativity) : eff_scope.
Open Scope eff_scope.

Definition set_isLocked (b : bool) : Eff unit :=
  assign (λ p, {| _isLocked := b; _timer := _timer p;
                  _operation := _operation p; _serial := _serial p;
                  history := history p ++ [Assign_isLocked b] |}).

Definition set_timer (t : float) : Eff unit :=
  assign (λ p, {| _isLocked := _isLocked p; _timer := t;
                  _operation := _operation p; _serial := _serial p;
                  history := history p ++ [Assign_timer t] |}).

Definition set_operation (v : pyval) : Eff unit :=
  assign (λ p, {| _isLocked := _isLocked p; _timer := _timer p;
                  _operation := v; _serial := _serial p;
                  history := history p ++ [Assign_operation v] |}).

(** [self._serial.write(command.encode('utf-8'))]. *)
Definition serial_write (frame : string) : Eff unit :=
  assign (λ p, {| _isLocked := _isLocked p; _timer := _timer p;
                  _operation := _operation p;
                  _serial := _serial p ++ [frame];
                  history := history p ++ [Serial_write frame] |}).

(** The object after [frame] has been written to its serial port. *)
Definition written (frame : string) (p : Projector) : Projector :=
  {| _isLocked := _isLocked p; _timer := _timer p;
     _operation := _operation p; _serial := _serial p ++ [frame];
     history := history p ++ [Serial_write frame] |}.

(** [_sendrecv]; [command] is the result of [OPTOMA_COMMANDS.get], so it may
    be [None], on which [.encode] raises before anything is written.
    [response] is what [get_response] hands back. *)
Definition _sendrecv (command : option string) (response : string) : Eff string :=
  match command with
  | None => raise (AttributeError "encode")
  | Some frame =>
      serial_write frame ;;
      ret response
  end.

Definition __initLock : Eff unit :=
  set_isLocked false ;;
  set_timer 0 ;;
  set_operation (PyBool false).

(** [__setLock]. The last branch evaluates the name [ALL], which the module
    does not define. *)
Definition __setLock (now : float) (command : string) : Eff unit :=
  (if bool_decide (command ∈ [TURN_ON; TURN_OFF])
   then set_operation (PyStr command)
   else if dict_contains SOURCE_LIST command
   then set_operation (PyStr SOURCE)
   else raise (NameError "ALL")) ;;
  set_isLocked true ;;
  set_timer now.

Definition __unLock : Eff unit :=
  set_operation (PyBool false) ;;
  set_timer 0 ;;
  set_isLocked false.

Definition __checkLock (now : float) : Eff bool :=
  p <- self ;;
  if _isLocked p then
    timeout <- lift (dict_getitem TIMEOUT_TIMES (_operation p)) ;;
    if float_gt_int (now - _timer p) timeout then
      __unLock ;;
      ret false
    else ret true
  else ret false.

Definition __get_timeout (command : string) : Eff Z :=
  if dict_contains TIMEOUT_TIMES command
  then lift (dict_getitem TIMEOUT_TIMES (PyStr command))
  else lift (dict_getitem TIMEOUT_TIMES (PyStr "ALL")).

(** The body of the [try] statement of [get_property]. [None] stands for
    reaching the end of a block without a [return]. *)
Definition get_property_try (command response : string) : Eff pyval :=
  r <- (if String.eqb command "PWR" then
          if (String.length response =? 3)%nat then
            c <- lift (str_getitem response 2) ;;
            if Ascii.eqb c "1" then ret (Some (PyStr "on"))
            else if Ascii.eqb c "0" then ret (Some (PyStr "off"))
            else ret None
          else ret None
        else ret None) ;;
  match r with
  | Some v => ret v
  | None =>
      if String.eqb command "SOURCE" then
        if (String.length response =? 4)%nat then
          ret (dict_get SOURCE_MAP response)
        else ret PyNone
      else ret PyNone
  end.

Definition get_property (now : float) (command response : string) : Eff pyval :=
  busy <- __checkLock now ;;
  if busy then ret (PyStr BUSY)
  else
    timeout <- __get_timeout command ;;
    response <- _sendrecv (OPTOMA_COMMANDS !! command) response ;;
    if String.eqb response "" then ret (PyBool false)
    else
      try_except_KeyError
        (get_property_try command response)
        (ret (PyStr BUSY)).

(** [send_command]; [t_check] and [t_lock] are the clock readings of
    [__checkLock] and of [__setLock]. *)
Definition send_command (t_check t_lock : float) (command result : string) : Eff pyval :=
  busy <- __checkLock t_check ;;
  if busy then ret (PyBool false)
  else
    __setLock t_lock command ;;
    result <- _sendrecv (OPTOMA_COMMANDS !! command) result ;;
    if String.eqb result "P" then ret (PyStr "OK")
    else if String.eqb result "F" then ret (PyStr "BUSY")
    else ret PyNone.

(** [__checkLock] called once at each of the clock readings of [nows], in
    order; the results of the calls, in order. *)
Fixpoint checkLock_calls (nows : list float) : Eff (list bool) :=
  match nows with
  | [] => ret []
  | now :: nows' =>
      b <- __checkLock now ;;
      bs <- checkLock_calls nows' ;;
      ret (b :: bs)
  end.

(** The object as [__init__] leaves it: [__initLock] on a port nothing has
    been written to. *)
Definition Projector_init : Projector :=
  {| _isLocked := false; _timer := 0; _operation := PyBool false; _serial := [];
     history := [] |}.

(** The object after [__unLock]: the lock fields reset, in the order
    [__unLock] assigns them. *)
Definition unlocked (p : Projector) : Projector :=
  {| _isLocked := false; _timer := 0; _operation := PyBool false;
     _serial := _serial p;
     history := history p ++ [Assign_operation (PyBool false); Assign_timer 0;
                              Assign_isLocked false] |}.

(** The object after [__setLock] has classified the command as [operation]
    at the clock reading [now]: the lock fields set, in the order
    [__setLock] assigns them. *)
Definition locked (operation : string) (now : float) (p : Projector) : Projector :=
  {| _isLocked := true; _timer := now; _operation := PyStr operation;
     _serial := _serial p;
     history := history p ++ [Assign_operation (PyStr operation);
                              Assign_isLocked true; Assign_timer now] |}.

(** ** Further methods *)

(** [_send]: the frame is written and the fixed marker ['P'] returned; the
    reply channel is not consulted. *)
Definition _send (command : string) : Eff string :=
  serial_write command ;;
  ret "P".

(** The lock fields are consistent: a held lock records an operation that
    has an entry in [TIMEOUT_TIMES]. *)
Definition lock_wf (p : Projector) : bool :=
  negb (_isLocked p)
  || match _operation p with
     | PyStr cls => dict_contains TIMEOUT_TIMES cls
     | _ => false
     end.

(** The operation [__setLock] records for a command; [None] for a command
    on which it raises. *)
Definition lock_class (command : string) : option string :=
  if bool_decide (command ∈ [TURN_ON; TURN_OFF]) then Some command
  else if dict_contains SOURCE_LIST command then Some SOURCE
  else None.

(** The value [send_command] returns for an acknowledgment. *)
Definition ack_value (result : string) : pyval :=
  if String.eqb result "P" then PyStr "OK"
  else if String.eqb result "F" then PyStr "BUSY"
  else PyNone.

(** A byte that [_readline] appends to the line: a one-byte code point that
    is neither the terminator nor the null byte. *)
Definition plain_byte (b : byte) : bool :=
  (Byte.to_N b <? 128)%N && negb (Byte.eqb b x0d) && negb (Byte.eqb b x00).

Definition not_null (b : byte) : bool := negb (Byte.eqb b x00).

(** A character that can occur in a line [_readline] returns. *)
Definition line_char (c : ascii) : bool :=
  (N_of_ascii c <? 128)%N && negb (Ascii.eqb c "013") && negb (Ascii.eqb c "000").

Fixpoint string_forallb (f : ascii → bool) (s : string) : bool :=
  match s with
  | EmptyString => true
  | String c s' => f c && string_forallb f s'
  end.

Definition is_Line (r : readline_result) : bool :=
  match r with
  | Line _ _ => true
  | _ => false
  end.

(** The unread bytes of a result, with [f] applied to them. *)
Definition map_rest (f : list byte → list byte) (r : readline_result)
  : readline_result :=
  match r with
  | Line output rest => Line output (f rest)
  | _ => r
  end.

(** ** The event registry of Projector

    [self._events] maps an event name to the list of its handlers. A handler
    is a callable of the caller's: [H] is the type of handlers, [W] what
    they act on, [E] what they raise, and [call] runs one of them. Handlers
    that subscribe further handlers while they run are outside this model:
    the registry is not part of [W]. *)

(** [_add_event]: the list of the event, created empty when the event has
    none, gets the handler appended. *)
Definition _add_event {H : Type} (event_name : string) (handler : H)
    (events : gmap string (list H)) : gmap string (list H) :=
  match events !! event_name with
  | None => <[event_name := [] ++ [handler]]> events
  | Some event_list => <[event_name := event_list ++ [handler]]> events
  end.

(** [for handler in event_list: handler()]: an exception of a handler ends
    the loop and propagates. *)
Fixpoint call_handlers {H W E : Type} (call : H → W → (E + unit) * W)
    (event_list : list H) (w : W) : (E + unit) * W :=
  match event_list with
  | [] => (inr tt, w)
  | handler :: event_list' =>
      match call handler w with
      | (inr _, w') => call_handlers call event_list' w'
      | (inl e, w') => (inl e, w')
      end
  end.

Definition _notify_event {H W E : Type} (call : H → W → (E + unit) * W)
    (events : gmap string (list H)) (event_name : string) (w : W)
  : (E + unit) * W :=
  match events !! event_name with
  | Some event_list => call_handlers call event_list w
  | None => (inr tt, w)
  end.

Definition powered_off {H : Type} (handler : H) (events : gmap string (list H))
  : gmap string (list H) :=
  _add_event "INFO0" handler events.

Definition powering_on {H : Type} (handler : H) (events : gmap string (list H))
  : gmap string (list H) :=
  _add_event "INFO1" handler events.

Definition powering_off {H : Type} (handler : H) (events : gmap string (list H))
  : gmap string (list H) :=
  _add_event "INFO2" handler events.

(** * Properties *)

(** ** The tables *)

Lemma SOURCE_MAP_never_BUSY (response : string) :
  dict_get SOURCE_MAP response ≠ PyStr BUSY.
Proof.
  unfold dict_get. destruct (SOURCE_MAP !! response) as [v |] eqn:E; [| discriminate].
  apply elem_of_list_to_map_2 in E. simpl.
  repeat (apply elem_of_cons in E as [E | E]; [inversion E; discriminate |]).
  apply elem_of_nil in E. destruct E.
Qed.

(** ** The busy lock *)

Lemma checkLock_unlocked (now : float) (p : Projector) :
  _isLocked p = false → __checkLock now p = (inr false, p).
Proof. intros H. unfold __checkLock, bind, self. rewrite H. reflexivity. Qed.

Lemma unLock_unlocked (p : Projector) : __unLock p = (inr tt, unlocked p).
Proof.
  unfold __unLock, bind, set_operation, set_timer, set_isLocked, assign, unlocked.
  cbn. rewrite <- !app_assoc. reflexivity.
Qed.

Lemma record_locked (operation : string) (now : float) (p : Projector) :
  (set_operation (PyStr operation) ;; set_isLocked true ;; set_timer now) p
  = (inr tt, locked operation now p).
Proof.
  unfold bind, set_operation, set_timer, set_isLocked, assign, locked.
  cbn. rewrite <- !app_assoc. reflexivity.
Qed.

Lemma checkLock_within (now : float) (p : Projector) (cls : string) (timeout : Z) :
  _isLocked p = true → _operation p = PyStr cls →
  TIMEOUT_TIMES !! cls = Some timeout →
  float_gt_int (now - _timer p) timeout = false →
  __checkLock now p = (inr true, p).
Proof.
  intros Hl Ho Ht Hle. unfold __checkLock, bind, self, lift, dict_getitem.
  rewrite Hl, Ho, Ht, Hle. reflexivity.
Qed.

Lemma checkLock_expired (now : float) (p : Projector) (cls : string) (timeout : Z) :
  _isLocked p = true → _operation p = PyStr cls →
  TIMEOUT_TIMES !! cls = Some timeout →
  float_gt_int (now - _timer p) timeout = true →
  __checkLock now p = (inr false, unlocked p).
Proof.
  intros Hl Ho Ht Hlt. unfold __checkLock, self, lift, dict_getitem.
  unfold bind at 1 2. rewrite Hl, Ho, Ht, Hlt.
  unfold bind. rewrite unLock_unlocked. reflexivity.
Qed.

Lemma setLock_power (now : float) (command : string) (p : Projector) :
  command ∈ [TURN_ON; TURN_OFF] →
  __setLock now command p = (inr tt, locked command now p).
Proof.
  intros H. unfold __setLock. rewrite (bool_decide_eq_true_2 _ H).
  apply record_locked.
Qed.

Lemma setLock_source (now : float) (command : string) (p : Projector) :
  dict_contains SOURCE_LIST command = true →
  __setLock now command p = (inr tt, locked SOURCE now p).
Proof.
  intros H. unfold __setLock. case_bool_decide as Hp.
  - exfalso. unfold dict_contains in H.
    repeat (apply elem_of_cons in Hp as [-> | Hp]; [vm_compute in H; discriminate |]).
    apply elem_of_nil in Hp. destruct Hp.
  - rewrite H. apply record_locked.
Qed.

Lemma setLock_unclassified (now : float) (command : string) (p : Projector) :
  command ∉ [TURN_ON; TURN_OFF] →
  dict_contains SOURCE_LIST command = false →
  __setLock now command p = (inl (NameError "ALL"), p).
Proof.
  intros H1 H2. unfold __setLock. rewrite (bool_decide_eq_false_2 _ H1), H2.
  reflexivity.
Qed.

Lemma checkLock_calls_app (nows : list float) (late : float) (p : Projector) :
  checkLock_calls (nows ++ [late]) p =
  (bs <- checkLock_calls nows ;; b <- __checkLock late ;; ret (bs ++ [b])) p.
Proof.
  revert p. induction nows as [| now nows IH]; intros p; cbn [checkLock_calls app].
  - unfold bind, ret. destruct (__checkLock late p) as [[e | b] p']; reflexivity.
  - unfold bind. destruct (__checkLock now p) as [[e | b] p']; [reflexivity |].
    rewrite IH. unfold bind, ret.
    destruct (checkLock_calls nows p') as [[e | bs] p'']; [reflexivity |].
    destruct (__checkLock late p'') as [[e | b'] p3]; reflexivity.
Qed.

Lemma checkLock_calls_within (nows : list float) (p : Projector) (cls : string) (timeout : Z) :
  _isLocked p = true → _operation p = PyStr cls →
  TIMEOUT_TIMES !! cls = Some timeout →
  Forall (λ now, float_gt_int (now - _timer p) timeout = false) nows →
  checkLock_calls nows p = (inr (replicate (length nows) true), p).
Proof.
  intros Hl Ho Ht Hall. induction Hall as [| now nows Hnow _ IH]; [reflexivity |].
  simpl. unfold bind at 1. rewrite (checkLock_within now p cls timeout Hl Ho Ht Hnow).
  unfold bind at 1. rewrite IH. reflexivity.
Qed.

(** C1, at the command ["3D_OFF"]: it is neither [TURN_ON] nor [TURN_OFF] nor
    a key of [SOURCE_LIST], and [TIMEOUT_TIMES] has the Generic entry ['ALL']
    of 2 seconds, yet [__setLock] does not classify it: it raises [NameError]
    on the undefined name [ALL] and leaves the lock as it was, and so does
    [send_command] when the lock is free, before any frame is written. *)
Theorem setLock_3D_OFF_raises_NameError :
  TIMEOUT_TIMES !! "ALL" = Some 2%Z ∧
  ("3D_OFF" ∉ [TURN_ON; TURN_OFF]) ∧
  SOURCE_LIST !! "3D_OFF" = None ∧
  (∀ (now : float) (p : Projector),
     __setLock now "3D_OFF" p = (inl (NameError "ALL"), p)) ∧
  (∀ (t_check t_lock : float) (result : string),
     send_command t_check t_lock "3D_OFF" result Projector_init
     = (inl (NameError "ALL"), Projector_init)).
Proof.
  assert (Hn : "3D_OFF" ∉ [TURN_ON; TURN_OFF]).
  { intros H. repeat (apply elem_of_cons in H as [H | H]; [discriminate |]).
    apply elem_of_nil in H. destruct H. }
  split; [reflexivity |]. split; [exact Hn |]. split; [reflexivity |]. split.
  - intros now p. apply setLock_unclassified; [exact Hn | reflexivity].
  - intros t_check t_lock result. unfold send_command.
    unfold bind at 1. rewrite checkLock_unlocked by reflexivity.
    unfold bind at 1 2.
    rewrite setLock_unclassified; [reflexivity | exact Hn | reflexivity].
Qed.

(** C7, as it fails: with the lock taken for [TURN_ON] at the clock reading
    0.1 (the float nearest to it), a call of [__checkLock] at the reading
    40.1 is made strictly more than the 40 seconds of the timeout later, by
    the exact values of the two floats; yet the float difference the
    program computes is 40.0, which is not greater than 40, and the call
    returns [True] and leaves the lock held. *)
Lemma checkLock_exact_elapsed_not_expired :
  (∃ late taken : Q,
     float_to_Q 0x1.40ccccccccccdp+5 = Some late ∧
     float_to_Q 0x1.999999999999ap-4 = Some taken ∧
     (40 < late - taken)%Q) ∧
  TIMEOUT_TIMES !! TURN_ON = Some 40%Z ∧
  (0x1.40ccccccccccdp+5 - 0x1.999999999999ap-4)%float = 40%float ∧
  __checkLock 0x1.40ccccccccccdp+5
    (locked TURN_ON 0x1.999999999999ap-4 Projector_init)
  = (inr true, locked TURN_ON 0x1.999999999999ap-4 Projector_init).
Proof.
  split; [| split; [reflexivity | split; [reflexivity |]]].
  - eexists. eexists. split; [vm_compute; reflexivity |].
    split; [vm_compute; reflexivity |]. vm_compute. reflexivity.
  - apply (checkLock_within _ _ TURN_ON 40%Z); reflexivity.
Qed.

(** C7, amended: the elapsed time is the float difference
    [time.time() - self._timer] as the program computes it. While the lock
    is held for a class with a timeout, every call of [__checkLock] for
    which that difference is not greater than the timeout returns [True]
    and leaves the object as it was; after any number of such calls, the
    first call for which the difference is greater than the timeout returns
    [False] and leaves the lock fields as [__unLock] sets them. *)
Theorem checkLock_busy_until_timeout
    (p : Projector) (cls : string) (timeout : Z) (nows : list float) (late : float) :
  _isLocked p = true →
  _operation p = PyStr cls →
  TIMEOUT_TIMES !! cls = Some timeout →
  Forall (λ now, float_gt_int (now - _timer p) timeout = false) nows →
  float_gt_int (late - _timer p) timeout = true →
  checkLock_calls nows p = (inr (replicate (length nows) true), p) ∧
  checkLock_calls (nows ++ [late]) p
  = (inr (replicate (length nows) true ++ [false]), unlocked p) ∧
  _isLocked (unlocked p) = false.
Proof.
  intros Hl Ho Ht Hall Hlate.
  pose proof (checkLock_calls_within nows p cls timeout Hl Ho Ht Hall) as Hin.
  split; [exact Hin |]. split; [| reflexivity].
  rewrite checkLock_calls_app. unfold bind at 1. rewrite Hin.
  unfold bind at 1. rewrite (checkLock_expired late p cls timeout Hl Ho Ht Hlate).
  reflexivity.
Qed.

Lemma checkLock_busy_until_timeout_witness :
  checkLock_calls [5%float; 40%float] (locked TURN_ON 0 Projector_init)
  = (inr [true; true], locked TURN_ON 0 Projector_init) ∧
  checkLock_calls [5%float; 40%float; 41%float] (locked TURN_ON 0 Projector_init)
  = (inr [true; true; false], unlocked (locked TURN_ON 0 Projector_init)).
Proof.
  destruct (checkLock_busy_until_timeout
              (locked TURN_ON 0 Projector_init) TURN_ON 40%Z [5%float; 40%float] 41%float)
    as (H1 & H2 & _).
  - reflexivity.
  - reflexivity.
  - reflexivity.
  - repeat constructor.
  - reflexivity.
  - split; [exact H1 | exact H2].
Defined.

(** C9: while the lock is free, any number of calls of [__checkLock], at any
    clock readings, all return [False] and leave the object, the fields
    [_isLocked], [_timer] and [_operation] included, as it was. *)
Theorem checkLock_unlocked_idempotent (p : Projector) (nows : list float) :
  _isLocked p = false →
  checkLock_calls nows p = (inr (replicate (length nows) false), p).
Proof.
  intros Hl. induction nows as [| now nows IH]; [reflexivity |].
  simpl. unfold bind at 1. rewrite (checkLock_unlocked now p Hl).
  unfold bind at 1. rewrite IH. reflexivity.
Qed.

Lemma checkLock_unlocked_idempotent_witness :
  checkLock_calls [0%float; 3%float; 100%float] Projector_init
  = (inr [false; false; false], Projector_init).
Proof.
  apply (checkLock_unlocked_idempotent Projector_init [0%float; 3%float; 100%float]).
  reflexivity.
Defined.

(** ** Running a method body step by step *)

Lemma bind_inr {A B : Type} (m : Eff A) (k : A → Eff B) (p p' : Projector) (a : A) :
  m p = (inr a, p') → bind m k p = k a p'.
Proof. intros H. unfold bind. rewrite H. reflexivity. Qed.

Lemma bind_inl {A B : Type} (m : Eff A) (k : A → Eff B) (p p' : Projector) (e : exn) :
  m p = (inl e, p') → bind m k p = (inl e, p').
Proof. intros H. unfold bind. rewrite H. reflexivity. Qed.

(** ** send_command *)

(** The value [send_command] returns for an acknowledgment. *)
Lemma send_command_free
    (t_check t_lock : float) (command result frame : string) (p p0 p1 : Projector) :
  __checkLock t_check p = (inr false, p0) →
  __setLock t_lock command p0 = (inr tt, p1) →
  OPTOMA_COMMANDS !! command = Some frame →
  send_command t_check t_lock command result p
  = (inr (if String.eqb result "P" then PyStr "OK"
          else if String.eqb result "F" then PyStr "BUSY"
          else PyNone),
     written frame p1).
Proof.
  intros Hc Hs Hf. unfold send_command.
  rewrite (bind_inr _ _ _ _ _ Hc). rewrite (bind_inr _ _ _ _ _ Hs).
  rewrite Hf. unfold _sendrecv, serial_write, bind, assign, ret.
  destruct (String.eqb result "P"); [reflexivity |].
  destruct (String.eqb result "F"); reflexivity.
Qed.

Lemma send_command_busy
    (t_check t_lock : float) (command result : string) (p p0 : Projector) :
  __checkLock t_check p = (inr true, p0) →
  send_command t_check t_lock command result p = (inr (PyBool false), p0).
Proof.
  intros Hc. unfold send_command. rewrite (bind_inr _ _ _ _ _ Hc). reflexivity.
Qed.

Lemma SOURCE_LIST_has_frame (command : string) :
  dict_contains SOURCE_LIST command = true →
  is_Some (OPTOMA_COMMANDS !! command).
Proof.
  unfold dict_contains. intros H. apply bool_decide_eq_true_1 in H as [v Hv].
  apply elem_of_list_to_map_2 in Hv.
  repeat (apply elem_of_cons in Hv as [Hv | Hv];
          [inversion Hv; subst; eexists; reflexivity |]).
  apply elem_of_nil in Hv. destruct Hv.
Qed.

(** C2, as it fails: the second [send_command], issued at the clock reading
    of the first while the lock taken for [TURN_ON] is held, returns
    [False]. That is not the Busy sentinel: the string ['BUSY'] is what
    [send_command] returns for the acknowledgment ['F'], and what
    [get_property] returns on the same busy lock. *)
Lemma send_command_busy_lock_returns_False :
  fst (send_command 100 100 TURN_ON "P" Projector_init) = inr (PyStr "OK") ∧
  fst (send_command 100 100 TURN_ON "P"
         (snd (send_command 100 100 TURN_ON "P" Projector_init)))
  = inr (PyBool false) ∧
  PyBool false ≠ PyStr BUSY ∧
  fst (send_command 100 100 TURN_ON "F" Projector_init) = inr (PyStr BUSY) ∧
  fst (get_property 100 POWER "OK1"
         (snd (send_command 100 100 TURN_ON "P" Projector_init)))
  = inr (PyStr BUSY).
Proof.
  split; [vm_compute; reflexivity |]. split; [vm_compute; reflexivity |].
  split; [discriminate |]. split; vm_compute; reflexivity.
Qed.

(** C2, amended: [send_command("TURN_ON")] on a free lock assigns the lock
    fields (operation [TURN_ON], locked, timer at the clock reading) and
    only then writes the frame ['~0000 1\r'], which is the one frame it adds
    to the port; it returns ['OK'] for the acknowledgment ['P'] and ['BUSY']
    for ['F']; and any further [send_command] for which [__checkLock]
    measures no more than 40 seconds since the lock was taken returns
    [False] (the rejection of a busy lock, which is not the string ['BUSY'])
    and leaves the object as it was: nothing is written and no field is
    assigned. *)
Theorem send_command_TURN_ON_then_busy
    (p : Projector) (t_check t_lock : float) (result : string) :
  _isLocked p = false →
  history (snd (send_command t_check t_lock TURN_ON result p))
  = history p ++ [Assign_operation (PyStr TURN_ON); Assign_isLocked true;
                  Assign_timer t_lock; Serial_write ("~0000 1" +:+ CR)] ∧
  _serial (snd (send_command t_check t_lock TURN_ON result p))
  = _serial p ++ ["~0000 1" +:+ CR] ∧
  _isLocked (snd (send_command t_check t_lock TURN_ON result p)) = true ∧
  _operation (snd (send_command t_check t_lock TURN_ON result p)) = PyStr TURN_ON ∧
  _timer (snd (send_command t_check t_lock TURN_ON result p)) = t_lock ∧
  (result = "P" →
   fst (send_command t_check t_lock TURN_ON result p) = inr (PyStr "OK")) ∧
  (result = "F" →
   fst (send_command t_check t_lock TURN_ON result p) = inr (PyStr "BUSY")) ∧
  (∀ (t_check2 t_lock2 : float) (command2 result2 : string),
     float_gt_int (t_check2 - t_lock) 40 = false →
     send_command t_check2 t_lock2 command2 result2
       (snd (send_command t_check t_lock TURN_ON result p))
     = (inr (PyBool false), snd (send_command t_check t_lock TURN_ON result p))) ∧
  PyBool false ≠ PyStr "BUSY".
Proof.
  intros Hfree.
  assert (Hset : __setLock t_lock TURN_ON p = (inr tt, locked TURN_ON t_lock p)).
  { apply setLock_power. apply elem_of_cons. left. reflexivity. }
  pose proof (send_command_free t_check t_lock TURN_ON result ("~0000 1" +:+ CR)
                p p (locked TURN_ON t_lock p)
                (checkLock_unlocked t_check p Hfree) Hset eq_refl) as Hsend.
  rewrite Hsend. cbn [fst snd].
  split; [cbn; rewrite <- app_assoc; reflexivity |].
  split; [reflexivity |]. split; [reflexivity |]. split; [reflexivity |].
  split; [reflexivity |].
  split; [intros ->; reflexivity |].
  split; [intros ->; reflexivity |].
  split; [| discriminate].
  intros t_check2 t_lock2 command2 result2 Hle.
  apply send_command_busy.
  apply (checkLock_within _ _ TURN_ON 40%Z); [reflexivity .. | exact Hle].
Qed.

Lemma send_command_TURN_ON_then_busy_witness :
  history (snd (send_command 100 100 TURN_ON "P" Projector_init))
  = [Assign_operation (PyStr TURN_ON); Assign_isLocked true;
     Assign_timer 100; Serial_write ("~0000 1" +:+ CR)] ∧
  _serial (snd (send_command 100 100 TURN_ON "P" Projector_init))
  = ["~0000 1" +:+ CR] ∧
  fst (send_command 100 100 TURN_ON "P" Projector_init) = inr (PyStr "OK") ∧
  send_command 100 100 "HDMI1" "P"
    (snd (send_command 100 100 TURN_ON "P" Projector_init))
  = (inr (PyBool false), snd (send_command 100 100 TURN_ON "P" Projector_init)).
Proof.
  destruct (send_command_TURN_ON_then_busy Projector_init 100 100 "P" eq_refl)
    as (Hhist & Hser & _ & _ & _ & Hok & _ & Hbusy & _).
  split; [exact Hhist |]. split; [exact Hser |]. split; [exact (Hok eq_refl) |].
  apply Hbusy. reflexivity.
Defined.

(** C10: when the lock is free and the command is one [__setLock] accepts
    ([TURN_ON], [TURN_OFF] or a key of [SOURCE_LIST]), so that the frame is
    written and an acknowledgment is awaited, an acknowledgment that is
    neither ['P'] nor ['F'] makes [send_command] return [None], with the
    lock taken and the frame written; the empty acknowledgment is such a
    case. The result is a plain [None], not an exception and not a value of
    its own. *)
Theorem send_command_other_ack_returns_None
    (p p0 : Projector) (t_check t_lock : float) (command result : string) :
  __checkLock t_check p = (inr false, p0) →
  command ∈ [TURN_ON; TURN_OFF] ∨ dict_contains SOURCE_LIST command = true →
  result ≠ "P" →
  result ≠ "F" →
  ∃ (operation frame : string),
    OPTOMA_COMMANDS !! command = Some frame ∧
    send_command t_check t_lock command result p
    = (inr PyNone, written frame (locked operation t_lock p0)).
Proof.
  intros Hc Hcls HP HF.
  assert (Hres : (if String.eqb result "P" then PyStr "OK"
                  else if String.eqb result "F" then PyStr "BUSY"
                  else PyNone) = PyNone).
  { destruct (String.eqb_spec result "P"); [contradiction |].
    destruct (String.eqb_spec result "F"); [contradiction | reflexivity]. }
  destruct Hcls as [Hpow | Hsrc].
  - assert (Hf : is_Some (OPTOMA_COMMANDS !! command)).
    { repeat (apply elem_of_cons in Hpow as [-> | Hpow]; [eexists; reflexivity |]).
      apply elem_of_nil in Hpow. destruct Hpow. }
    destruct Hf as [frame Hf]. exists command, frame. split; [exact Hf |].
    rewrite <- Hres.
    apply (send_command_free _ _ _ _ _ _ p0); [exact Hc | | exact Hf].
    apply setLock_power. exact Hpow.
  - destruct (SOURCE_LIST_has_frame command Hsrc) as [frame Hf].
    exists SOURCE, frame. split; [exact Hf |].
    rewrite <- Hres.
    apply (send_command_free _ _ _ _ _ _ p0); [exact Hc | | exact Hf].
    apply setLock_source. exact Hsrc.
Qed.

Lemma send_command_other_ack_returns_None_witness :
  ∃ (operation frame : string),
    OPTOMA_COMMANDS !! "HDMI2" = Some frame ∧
    send_command 7 7 "HDMI2" "" Projector_init
    = (inr PyNone, written frame (locked operation 7 Projector_init)).
Proof.
  apply (send_command_other_ack_returns_None
           Projector_init Projector_init 7 7 "HDMI2" "").
  - reflexivity.
  - right. vm_compute. reflexivity.
  - discriminate.
  - discriminate.
Defined.

(** ** get_property *)

Lemma get_timeout_returns (command : string) (p : Projector) :
  ∃ timeout : Z, __get_timeout command p = (inr timeout, p).
Proof.
  unfold __get_timeout, dict_contains, lift, dict_getitem.
  case_bool_decide as H.
  - destruct H as [t Ht]. rewrite Ht. eexists. reflexivity.
  - eexists. reflexivity.
Qed.

(** The [try] block returns for every command and reply: its lookups are
    a guarded index and [dict.get]. *)
Lemma get_property_try_returns (command response : string) (p : Projector) :
  ∃ v : pyval,
    get_property_try command response p = (inr v, p) ∧ v ≠ PyStr BUSY.
Proof.
  unfold get_property_try.
  assert (Hsrc : ∃ v : pyval,
             (if String.eqb command "SOURCE" then
                if (String.length response =? 4)%nat
                then ret (dict_get SOURCE_MAP response) else ret PyNone
              else ret PyNone) p = (inr v, p) ∧ v ≠ PyStr BUSY).
  { destruct (String.eqb command "SOURCE"); [| eexists; split; [reflexivity | discriminate]].
    destruct (String.length response =? 4)%nat; [| eexists; split; [reflexivity | discriminate]].
    eexists. split; [reflexivity | apply SOURCE_MAP_never_BUSY]. }
  destruct (String.eqb command "PWR"); [| exact Hsrc].
  destruct (String.length response =? 3)%nat eqn:Hlen; [| exact Hsrc].
  apply Nat.eqb_eq in Hlen.
  destruct response as [| a [| b [| c r]]]; try discriminate Hlen.
  unfold bind at 1 2, lift, str_getitem. cbn [String.get Nat.eqb Nat.pred].
  destruct (Ascii.eqb c "1"); [eexists; split; [reflexivity | discriminate] |].
  destruct (Ascii.eqb c "0"); [eexists; split; [reflexivity | discriminate] |].
  exact Hsrc.
Qed.

(** [get_property] on a lock that is not busy, for a command with a frame. *)
Lemma get_property_free
    (now : float) (command response frame : string) (p p0 : Projector) :
  __checkLock now p = (inr false, p0) →
  OPTOMA_COMMANDS !! command = Some frame →
  get_property now command response p
  = if String.eqb response "" then (inr (PyBool false), written frame p0)
    else get_property_try command response (written frame p0).
Proof.
  intros Hc Hf. unfold get_property. rewrite (bind_inr _ _ _ _ _ Hc).
  destruct (get_timeout_returns command p0) as [t Ht].
  rewrite (bind_inr _ _ _ _ _ Ht). rewrite Hf.
  unfold _sendrecv, serial_write, assign. unfold bind at 1 2, ret at 1.
  fold (written frame p0).
  destruct (String.eqb response ""); [reflexivity |].
  unfold try_except_KeyError.
  destruct (get_property_try_returns command response (written frame p0))
    as (v & -> & _).
  reflexivity.
Qed.

Lemma get_property_busy (now : float) (command response : string) (p p0 : Projector) :
  __checkLock now p = (inr true, p0) →
  get_property now command response p = (inr (PyStr BUSY), p0).
Proof.
  intros Hc. unfold get_property. rewrite (bind_inr _ _ _ _ _ Hc). reflexivity.
Qed.

Lemma get_property_BUSY_iff (now : float) (command response : string) (p : Projector) :
  fst (get_property now command response p) = inr (PyStr BUSY)
  ↔ fst (__checkLock now p) = inr true.
Proof.
  destruct (__checkLock now p) as [[e | [|]] p0] eqn:Hc.
  - unfold get_property. rewrite (bind_inl _ _ _ _ _ Hc). split; discriminate.
  - rewrite (get_property_busy _ _ _ _ _ Hc). split; reflexivity.
  - split; [| discriminate]. intros H. exfalso. revert H.
    destruct (OPTOMA_COMMANDS !! command) as [frame |] eqn:Hf.
    + rewrite (get_property_free _ _ _ _ _ _ Hc Hf).
      destruct (String.eqb response ""); [discriminate |].
      destruct (get_property_try_returns command response (written frame p0))
        as (v & -> & Hv).
      intros [= ->]. apply Hv. reflexivity.
    + unfold get_property. rewrite (bind_inr _ _ _ _ _ Hc).
      destruct (get_timeout_returns command p0) as [t Ht].
      rewrite (bind_inr _ _ _ _ _ Ht). rewrite Hf. discriminate.
Qed.

Lemma get_property_try_SOURCE (response : string) (p : Projector) :
  String.length response = 4 →
  get_property_try SOURCE response p = (inr (dict_get SOURCE_MAP response), p).
Proof.
  intros Hlen. unfold get_property_try.
  change (String.eqb SOURCE "PWR") with false.
  change (String.eqb SOURCE "SOURCE") with true.
  cbv iota. rewrite (proj2 (Nat.eqb_eq _ _) Hlen). reflexivity.
Qed.

Lemma get_property_try_PWR_other_length (response : string) (p : Projector) :
  String.length response ≠ 3 →
  get_property_try POWER response p = (inr PyNone, p).
Proof.
  intros Hlen. unfold get_property_try.
  change (String.eqb POWER "PWR") with true.
  change (String.eqb POWER "SOURCE") with false.
  cbv iota. rewrite (proj2 (Nat.eqb_neq _ _) Hlen). reflexivity.
Qed.

Lemma nonempty_eqb (response : string) :
  response ≠ "" → String.eqb response "" = false.
Proof. intros H. destruct (String.eqb_spec response ""); [contradiction | reflexivity]. Qed.

(** C3, as it fails: the reply ['OK99'] to [get_property("SOURCE")] misses
    the lookup in [SOURCE_MAP] and the result is [None], not the Busy
    sentinel; no command and reply make the [try] block raise [KeyError];
    and no call of [get_property] on a lock that is not busy returns the
    Busy sentinel. *)
Lemma get_property_lookup_miss_is_not_BUSY :
  SOURCE_MAP !! "OK99" = None ∧
  get_property 0 SOURCE "OK99" Projector_init
  = (inr PyNone, written ("~00121 1" +:+ CR) Projector_init) ∧
  ¬ (∃ (command response : string) (p p' : Projector) (key : pyval),
       get_property_try command response p = (inl (KeyError key), p')) ∧
  ¬ (∃ (now : float) (command response : string) (p p0 : Projector),
       __checkLock now p = (inr false, p0) ∧
       fst (get_property now command response p) = inr (PyStr BUSY)).
Proof.
  split; [reflexivity |]. split; [vm_compute; reflexivity |]. split.
  - intros (command & response & p & p' & key & H).
    destruct (get_property_try_returns command response p) as (v & Hv & _).
    rewrite Hv in H. discriminate H.
  - intros (now & command & response & p & p0 & Hc & H).
    apply get_property_BUSY_iff in H. rewrite Hc in H. discriminate H.
Qed.

(** C3, amended: for every command and reply the [try] block of
    [get_property] returns a value, which is not the Busy sentinel, so the
    [except KeyError] handler is never entered; and [get_property] returns
    the Busy sentinel exactly when [__checkLock] reports the lock busy. *)
Theorem get_property_BUSY_only_from_lock
    (now : float) (command response : string) (p : Projector) :
  (∃ v : pyval,
     get_property_try command response p = (inr v, p) ∧ v ≠ PyStr BUSY) ∧
  (fst (get_property now command response p) = inr (PyStr BUSY)
   ↔ fst (__checkLock now p) = inr true).
Proof.
  split.
  - apply get_property_try_returns.
  - apply get_property_BUSY_iff.
Qed.

(** C4: on a lock that is not busy, [get_property("SOURCE")] writes the
    frame ['~00121 1\r'] and decodes a 4-character reply by [SOURCE_MAP]:
    ['OK07'] gives ['HDMI1'], and a code that is not a key of the table,
    such as ['OK99'], gives [None]. *)
Theorem get_property_SOURCE_decodes (now : float) (p p0 : Projector) :
  __checkLock now p = (inr false, p0) →
  get_property now SOURCE "OK07" p
  = (inr (PyStr "HDMI1"), written ("~00121 1" +:+ CR) p0) ∧
  get_property now SOURCE "OK99" p
  = (inr PyNone, written ("~00121 1" +:+ CR) p0) ∧
  (∀ response : string,
     String.length response = 4 →
     get_property now SOURCE response p
     = (inr (default PyNone (SOURCE_MAP !! response)),
        written ("~00121 1" +:+ CR) p0)) ∧
  (∀ response : string,
     String.length response = 4 →
     SOURCE_MAP !! response = None →
     get_property now SOURCE response p
     = (inr PyNone, written ("~00121 1" +:+ CR) p0)).
Proof.
  intros Hc.
  assert (Hall : ∀ response : string,
             String.length response = 4 →
             get_property now SOURCE response p
             = (inr (default PyNone (SOURCE_MAP !! response)),
                written ("~00121 1" +:+ CR) p0)).
  { intros response Hlen.
    rewrite (get_property_free now SOURCE response ("~00121 1" +:+ CR) p p0
               Hc eq_refl).
    rewrite nonempty_eqb by (intros ->; discriminate Hlen).
    apply get_property_try_SOURCE. exact Hlen. }
  split; [apply (Hall "OK07"); reflexivity |].
  split; [apply (Hall "OK99"); reflexivity |].
  split; [exact Hall |].
  intros response Hlen Hmiss. rewrite (Hall response Hlen), Hmiss. reflexivity.
Qed.

Lemma get_property_SOURCE_decodes_witness :
  get_property 3 SOURCE "OK07" Projector_init
  = (inr (PyStr "HDMI1"), written ("~00121 1" +:+ CR) Projector_init) ∧
  get_property 3 SOURCE "OK99" Projector_init
  = (inr PyNone, written ("~00121 1" +:+ CR) Projector_init).
Proof.
  destruct (get_property_SOURCE_decodes 3 Projector_init Projector_init eq_refl)
    as (H07 & H99 & _).
  split; [exact H07 | exact H99].
Defined.

(** C8: on a lock that is not busy, [get_property("PWR")] writes the frame
    ['~00124 1\r']; an empty reply gives [False], which is not the Busy
    sentinel; a 3-character reply gives ['on'] when its third character is
    ['1'] and ['off'] when it is ['0']; a non-empty reply of any length other
    than 3 gives [None]. *)
Theorem get_property_PWR_decodes (now : float) (p p0 : Projector) :
  __checkLock now p = (inr false, p0) →
  get_property now POWER "" p
  = (inr (PyBool false), written ("~00124 1" +:+ CR) p0) ∧
  PyBool false ≠ PyStr BUSY ∧
  (∀ a b : ascii,
     get_property now POWER (String a (String b "1")) p
     = (inr (PyStr "on"), written ("~00124 1" +:+ CR) p0)) ∧
  (∀ a b : ascii,
     get_property now POWER (String a (String b "0")) p
     = (inr (PyStr "off"), written ("~00124 1" +:+ CR) p0)) ∧
  (∀ response : string,
     response ≠ "" →
     String.length response ≠ 3 →
     get_property now POWER response p
     = (inr PyNone, written ("~00124 1" +:+ CR) p0)).
Proof.
  intros Hc.
  pose proof (λ response,
      get_property_free now POWER response ("~00124 1" +:+ CR) p p0 Hc eq_refl)
    as Hfree.
  split; [apply Hfree |]. split; [discriminate |].
  split; [intros a b; rewrite Hfree; reflexivity |].
  split; [intros a b; rewrite Hfree; reflexivity |].
  intros response Hne Hlen. rewrite Hfree, (nonempty_eqb _ Hne).
  apply get_property_try_PWR_other_length. exact Hlen.
Qed.

Lemma get_property_PWR_decodes_witness :
  get_property 3 POWER "" Projector_init
  = (inr (PyBool false), written ("~00124 1" +:+ CR) Projector_init) ∧
  get_property 3 POWER "OK1" Projector_init
  = (inr (PyStr "on"), written ("~00124 1" +:+ CR) Projector_init) ∧
  get_property 3 POWER "OK0" Projector_init
  = (inr (PyStr "off"), written ("~00124 1" +:+ CR) Projector_init) ∧
  get_property 3 POWER "OK" Projector_init
  = (inr PyNone, written ("~00124 1" +:+ CR) Projector_init).
Proof.
  destruct (get_property_PWR_decodes 3 Projector_init Projector_init eq_refl)
    as (Hempty & _ & Hon & Hoff & Hother).
  split; [exact Hempty |].
  split; [exact (Hon "O"%char "K"%char) |].
  split; [exact (Hoff "O"%char "K"%char) |].
  apply Hother; [discriminate | vm_compute; discriminate].
Defined.

(** ** The frame reader *)



(** C5: on the bytes ['A'], 0x00, ['B'], 0x0D, whatever follows them,
    [_readline] returns ['AB'] and leaves what follows unread: the null byte
    is dropped and the carriage return is consumed but not part of the line;
    on the bytes of ['INFO1'], with or without anything after them,
    [_readline] returns ['INFO1'] without reading further. *)
Theorem readline_null_byte_and_INFO1 :
  (∀ rest : list byte,
     _readline (["A"%byte; x00; "B"%byte; x0d] ++ rest) = Line "AB" rest) ∧
  _readline ["A"%byte; x00; "B"%byte; x0d] = Line "AB" [] ∧
  (∀ rest : list byte,
     _readline (list_byte_of_string "INFO1" ++ rest) = Line "INFO1" rest) ∧
  _readline ["I"%byte; "N"%byte; "F"%byte; "O"%byte; "1"%byte] = Line "INFO1" [].
Proof.
  split; [intros rest; reflexivity |]. split; [reflexivity |].
  split; [intros rest; reflexivity | reflexivity].
Qed.



(** ** The event registry *)

Lemma add_event_same {H : Type} (event_name : string) (handler : H)
    (events : gmap string (list H)) :
  _add_event event_name handler events !! event_name
  = Some (default [] (events !! event_name) ++ [handler]).
Proof.
  unfold _add_event. destruct (events !! event_name) as [event_list |] eqn:E;
    rewrite lookup_insert_eq; reflexivity.
Qed.

Lemma add_event_other {H : Type} (event_name other : string) (handler : H)
    (events : gmap string (list H)) :
  other ≠ event_name →
  _add_event event_name handler events !! other = events !! other.
Proof.
  intros Hne. unfold _add_event.
  destruct (events !! event_name); rewrite lookup_insert_ne; congruence.
Qed.

Lemma call_handlers_app {H W E : Type} (call : H → W → (E + unit) * W)
    (l1 l2 : list H) (w : W) :
  call_handlers call (l1 ++ l2) w
  = match call_handlers call l1 w with
    | (inr _, w') => call_handlers call l2 w'
    | (inl e, w') => (inl e, w')
    end.
Proof.
  revert w. induction l1 as [| h l1 IH]; intros w; cbn [call_handlers app].
  - reflexivity.
  - destruct (call h w) as [[e | []] w']; [reflexivity | apply IH].
Qed.

(** X1: [_add_event] appends the handler at the end of the list of its
    event, starting from the empty list when the event has none; the
    handlers already registered for the event stay, in their order, and
    the lists of all other events are left as they were. *)
Theorem add_event_appends {H : Type} (event_name : string) (handler : H)
    (events : gmap string (list H)) :
  _add_event event_name handler events !! event_name
  = Some (default [] (events !! event_name) ++ [handler]) ∧
  (∀ other : string,
     other ≠ event_name →
     _add_event event_name handler events !! other = events !! other) ∧
  (∀ (other : string) (event_list : list H),
     events !! other = Some event_list →
     ∃ added : list H,
       _add_event event_name handler events !! other = Some (event_list ++ added)).
Proof.
  split; [apply add_event_same |]. split.
  - intros other Hne. apply add_event_other. exact Hne.
  - intros other event_list Hl. destruct (decide (other = event_name)) as [-> | Hne].
    + exists [handler]. rewrite add_event_same, Hl. reflexivity.
    + exists []. rewrite (add_event_other _ _ _ _ Hne), Hl, app_nil_r. reflexivity.
Qed.

Lemma add_event_appends_witness :
  _add_event "INFO0" 2%nat (_add_event "INFO0" 1%nat ∅) !! "INFO0" = Some [1%nat; 2%nat] ∧
  _add_event "INFO0" 2%nat (_add_event "INFO1" 1%nat ∅) !! "INFO1" = Some [1%nat].
Proof.
  split.
  - destruct (add_event_appends "INFO0" 2%nat (_add_event "INFO0" 1%nat ∅))
      as (Hsame & _ & _).
    rewrite Hsame. reflexivity.
  - destruct (add_event_appends "INFO0" 2%nat (_add_event "INFO1" 1%nat ∅))
      as (_ & Hother & _).
    rewrite Hother; [reflexivity | discriminate].
Defined.

(** X2: handlers run in the order of their subscription. After [h1] and
    then [h2] are added to an event, notifying the event runs the handlers
    it had before, then [h1], then [h2], each on what the one before left;
    with handlers that return, one after the other. *)
Theorem notify_event_subscription_order {H W E : Type}
    (call : H → W → (E + unit) * W) (events : gmap string (list H))
    (event_name : string) (h1 h2 : H) (w : W) :
  _notify_event call (_add_event event_name h2 (_add_event event_name h1 events))
    event_name w
  = call_handlers call (default [] (events !! event_name) ++ [h1; h2]) w ∧
  (∀ w0 w1 w2 : W,
     _notify_event call events event_name w = (inr tt, w0) →
     call h1 w0 = (inr tt, w1) →
     call h2 w1 = (inr tt, w2) →
     _notify_event call (_add_event event_name h2 (_add_event event_name h1 events))
       event_name w
     = (inr tt, w2)).
Proof.
  assert (Heq : _notify_event call
                  (_add_event event_name h2 (_add_event event_name h1 events))
                  event_name w
                = call_handlers call (default [] (events !! event_name) ++ [h1; h2]) w).
  { unfold _notify_event. rewrite add_event_same, add_event_same.
    change (default [] (Some (default [] (events !! event_name) ++ [h1])))
      with (default [] (events !! event_name) ++ [h1]).
    rewrite <- app_assoc. reflexivity. }
  split; [exact Heq |].
  intros w0 w1 w2 H0 H1 H2. rewrite Heq, call_handlers_app.
  unfold _notify_event in H0.
  destruct (events !! event_name) as [event_list |]; cbn [default from_option id].
  - rewrite H0. cbn [call_handlers]. rewrite H1, H2. reflexivity.
  - inversion H0; subst. cbn [call_handlers]. rewrite H1, H2. reflexivity.
Qed.

Lemma notify_event_subscription_order_witness :
  _notify_event (λ (h : nat) (w : list nat), (inr tt : Empty_set + unit, w ++ [h]))
    (_add_event "INFO2" 8%nat (_add_event "INFO2" 7%nat ∅)) "INFO2" []
  = (inr tt, [7%nat; 8%nat]).
Proof.
  destruct (notify_event_subscription_order
              (λ (h : nat) (w : list nat), (inr tt : Empty_set + unit, w ++ [h]))
              ∅ "INFO2" 7%nat 8%nat []) as (_ & Hrun).
  apply (Hrun [] [7%nat] [7%nat; 8%nat]); reflexivity.
Defined.

(** X3: [_notify_event] does not catch what a handler raises: when the
    handlers before [handler] return and [handler] raises, the exception
    comes out of [_notify_event] with the world as [handler] left it, and
    the handlers subscribed after [handler] are not run. *)
Theorem notify_event_handler_raises {H W E : Type}
    (call : H → W → (E + unit) * W) (events : gmap string (list H))
    (event_name : string) (before after : list H) (handler : H)
    (w w1 w2 : W) (e : E) :
  events !! event_name = Some (before ++ handler :: after) →
  call_handlers call before w = (inr tt, w1) →
  call handler w1 = (inl e, w2) →
  _notify_event call events event_name w = (inl e, w2).
Proof.
  intros Hl Hb Hh. unfold _notify_event. rewrite Hl, call_handlers_app, Hb.
  cbn [call_handlers]. rewrite Hh. reflexivity.
Qed.

Lemma notify_event_handler_raises_witness :
  _notify_event
    (λ (h : nat) (w : list nat),
       if (h =? 0)%nat then (inl "boom", w) else (inr tt, w ++ [h]))
    (_add_event "INFO0" 6%nat (_add_event "INFO0" 0%nat (_add_event "INFO0" 5%nat ∅)))
    "INFO0" []
  = (inl "boom", [5%nat]).
Proof.
  apply (notify_event_handler_raises _ _ "INFO0" [5%nat] [6%nat] 0%nat [] [5%nat]);
    reflexivity.
Defined.

(** X4: the three subscription methods register on three different events:
    a handler given to [powered_off] runs on ['INFO0'] only, one given to
    [powering_on] on ['INFO1'] only, one given to [powering_off] on
    ['INFO2'] only, each after the handlers its event already had; on any
    other event [_notify_event] does what it did before the subscription. *)
Theorem subscription_methods_events {H W E : Type}
    (call : H → W → (E + unit) * W) (events : gmap string (list H))
    (handler : H) (w : W) :
  _notify_event call (powered_off handler events) "INFO0" w
  = call_handlers call (default [] (events !! "INFO0") ++ [handler]) w ∧
  _notify_event call (powering_on handler events) "INFO1" w
  = call_handlers call (default [] (events !! "INFO1") ++ [handler]) w ∧
  _notify_event call (powering_off handler events) "INFO2" w
  = call_handlers call (default [] (events !! "INFO2") ++ [handler]) w ∧
  (∀ event_name : string,
     event_name ≠ "INFO0" →
     _notify_event call (powered_off handler events) event_name w
     = _notify_event call events event_name w) ∧
  (∀ event_name : string,
     event_name ≠ "INFO1" →
     _notify_event call (powering_on handler events) event_name w
     = _notify_event call events event_name w) ∧
  (∀ event_name : string,
     event_name ≠ "INFO2" →
     _notify_event call (powering_off handler events) event_name w
     = _notify_event call events event_name w).
Proof.
  unfold powered_off, powering_on, powering_off, _notify_event.
  rewrite !add_event_same.
  repeat split; try reflexivity;
    intros event_name Hne; rewrite (add_event_other _ _ _ _ Hne); reflexivity.
Qed.

Lemma subscription_methods_events_witness :
  _notify_event (λ (h : nat) (w : list nat), (inr tt : Empty_set + unit, w ++ [h]))
    (powered_off 3%nat (powering_on 4%nat ∅)) "INFO1" []
  = (inr tt, [4%nat]).
Proof.
  destruct (subscription_methods_events
              (λ (h : nat) (w : list nat), (inr tt : Empty_set + unit, w ++ [h]))
              (powering_on 4%nat ∅) 3%nat []) as (_ & _ & _ & Hother & _).
  rewrite Hother; [reflexivity | discriminate].
Defined.

(** ** More on the frame reader *)

Lemma string_app_cons (c : ascii) (s1 s2 : string) :
  String c s1 +:+ s2 = String c (s1 +:+ s2).
Proof. reflexivity. Qed.

Lemma string_app_assoc (s1 s2 s3 : string) :
  (s1 +:+ s2) +:+ s3 = s1 +:+ (s2 +:+ s3).
Proof.
  induction s1 as [| c s1 IH]; [reflexivity |].
  rewrite !string_app_cons, IH. reflexivity.
Qed.

Lemma string_app_empty_r (s : string) : s +:+ "" = s.
Proof.
  induction s as [| c s IH]; [reflexivity |].
  rewrite string_app_cons, IH. reflexivity.
Qed.

Lemma string_forallb_app (f : ascii → bool) (s1 s2 : string) :
  string_forallb f (s1 +:+ s2) = string_forallb f s1 && string_forallb f s2.
Proof.
  induction s1 as [| c s1 IH]; [reflexivity |].
  rewrite string_app_cons. cbn [string_forallb].
  destruct (f c); [exact IH | reflexivity].
Qed.

(** One step of the loop of [_readline] on a byte that is appended. *)
Lemma readline_loop_plain (output : string) (b : byte) (input : list byte) :
  plain_byte b = true →
  _readline_loop output (b :: input)
  = if String.eqb (output +:+ String (ascii_of_byte b) "") "INFO1"
    then Line (output +:+ String (ascii_of_byte b) "") input
    else _readline_loop (output +:+ String (ascii_of_byte b) "") input.
Proof.
  unfold plain_byte. intros Hp.
  apply andb_prop in Hp as [Hp H0]. apply andb_prop in Hp as [Hlt Hd].
  cbn [_readline_loop]. unfold decode.
  rewrite (negb_true_iff _) in Hd. rewrite Hd, H0, Hlt. reflexivity.
Qed.

(** One step of the loop on a null byte. *)
Lemma readline_loop_null (output : string) (input : list byte) :
  output ≠ "INFO1" →
  _readline_loop output (x00 :: input) = _readline_loop output input.
Proof.
  intros Hne. cbn [_readline_loop Byte.eqb negb].
  change (Byte.eqb x00 x0d) with false. change (Byte.eqb x00 x00) with true.
  cbn [negb]. destruct (String.eqb_spec output "INFO1"); [contradiction | reflexivity].
Qed.

Lemma readline_loop_filter_null (input : list byte) (output : string) :
  output ≠ "INFO1" →
  _readline_loop output (List.filter not_null input)
  = map_rest (List.filter not_null) (_readline_loop output input).
Proof.
  revert output. induction input as [| b input IH]; intros output Hne.
  - reflexivity.
  - cbn [List.filter]. unfold not_null at 1.
    destruct (Byte.eqb b x00) eqn:H0; cbn [negb].
    + apply byte_dec_bl in H0. subst b.
      rewrite readline_loop_null by exact Hne. apply IH. exact Hne.
    + cbn [_readline_loop]. destruct (Byte.eqb b x0d); [reflexivity |].
      rewrite H0. cbn [negb]. destruct (decode b) as [e | c]; [reflexivity |].
      destruct (String.eqb_spec (output +:+ c) "INFO1") as [Heq | Hneq];
        [reflexivity | apply IH; exact Hneq].
Qed.

(** X5: null bytes are invisible to [_readline], wherever they stand: on an
    input with its null bytes removed it ends the same way, with the same
    text, as on the input itself, and what it leaves unread is what it
    leaves unread of the input itself, with the null bytes removed. *)
Theorem readline_ignores_null_bytes (input : list byte) :
  _readline (List.filter not_null input)
  = map_rest (List.filter not_null) (_readline input).
Proof.
  unfold _readline. apply readline_loop_filter_null. discriminate.
Qed.

Lemma ascii_of_plain_byte (b : byte) :
  plain_byte b = true → line_char (ascii_of_byte b) = true.
Proof. destruct b; vm_compute; intros H; first [reflexivity | discriminate H]. Qed.

Lemma decode_high_byte (b : byte) :
  plain_byte b = false → b ≠ x0d → b ≠ x00 →
  decode b = inl (UnicodeDecodeError b).
Proof.
  destruct b; vm_compute; intros H Hd H0;
    first [reflexivity | discriminate H | contradiction].
Qed.

Lemma readline_loop_line_chars (input : list byte) (output line : string)
    (rest : list byte) :
  string_forallb line_char output = true →
  _readline_loop output input = Line line rest →
  string_forallb line_char line = true.
Proof.
  revert output. induction input as [| b input IH]; intros output Hout Hrun.
  - discriminate Hrun.
  - destruct (plain_byte b) eqn:Hp.
    + rewrite (readline_loop_plain _ _ _ Hp) in Hrun.
      assert (Hout' : string_forallb line_char
                        (output +:+ String (ascii_of_byte b) "") = true).
      { rewrite string_forallb_app, Hout. cbn [string_forallb andb].
        rewrite (ascii_of_plain_byte b Hp). reflexivity. }
      destruct (String.eqb (output +:+ String (ascii_of_byte b) "") "INFO1").
      * inversion Hrun; subst. exact Hout'.
      * apply (IH _ Hout' Hrun).
    + cbn [_readline_loop] in Hrun.
      destruct (Byte.eqb b x0d) eqn:Hd; [inversion Hrun; subst; exact Hout |].
      destruct (Byte.eqb b x00) eqn:H0; cbn [negb] in Hrun.
      * destruct (String.eqb output "INFO1").
        -- inversion Hrun; subst. exact Hout.
        -- apply (IH output); assumption.
      * rewrite (decode_high_byte b Hp (eqb_false Hd) (eqb_false H0)) in Hrun.
        discriminate Hrun.
Qed.

Lemma readline_loop_consumes (input : list byte) (output line : string)
    (rest : list byte) :
  _readline_loop output input = Line line rest →
  ∃ consumed : list byte, consumed ≠ [] ∧ input = consumed ++ rest.
Proof.
  revert output. induction input as [| b input IH]; intros output Hrun.
  - discriminate Hrun.
  - cbn [_readline_loop] in Hrun.
    destruct (Byte.eqb b x0d).
    { inversion Hrun; subst. exists [b]. split; [discriminate | reflexivity]. }
    destruct (if negb (Byte.eqb b x00)
              then match decode b with
                   | inl e => inl e
                   | inr c => inr (output +:+ c)
                   end
              else inr output) as [e | output']; [discriminate Hrun |].
    destruct (String.eqb output' "INFO1").
    + inversion Hrun; subst. exists [b]. split; [discriminate | reflexivity].
    + destruct (IH _ Hrun) as (consumed & _ & ->).
      exists (b :: consumed). split; [discriminate | reflexivity].
Qed.

(** X6: a line [_readline] returns holds only one-byte code points, and
    neither a carriage return nor a null character; and [_readline] has
    read at least one byte for it: the input is a non-empty consumed part
    followed by what is left unread. *)
Theorem readline_line_shape (input rest : list byte) (line : string) :
  _readline input = Line line rest →
  string_forallb line_char line = true ∧
  ∃ consumed : list byte, consumed ≠ [] ∧ input = consumed ++ rest.
Proof.
  intros Hrun. split.
  - apply (readline_loop_line_chars input "" line rest); [reflexivity | exact Hrun].
  - apply (readline_loop_consumes input "" line rest). exact Hrun.
Qed.

Lemma readline_line_shape_witness :
  string_forallb line_char "OK1" = true ∧
  ∃ consumed : list byte,
    consumed ≠ [] ∧
    [x00; "O"%byte; "K"%byte; "1"%byte; x0d; "P"%byte] = consumed ++ ["P"%byte].
Proof.
  apply (readline_line_shape
           [x00; "O"%byte; "K"%byte; "1"%byte; x0d; "P"%byte] ["P"%byte] "OK1").
  reflexivity.
Defined.

Lemma string_of_list_byte_cons (b : byte) (bs : list byte) :
  string_of_list_byte (b :: bs)
  = String (ascii_of_byte b) (string_of_list_byte bs).
Proof. reflexivity. Qed.

Lemma readline_loop_plain_prefix (bs : list byte) (acc : string) (tail : list byte) :
  forallb plain_byte bs = true →
  (∀ t u : string,
     string_of_list_byte bs = t +:+ u → t ≠ "" → acc +:+ t ≠ "INFO1") →
  _readline_loop acc (bs ++ tail)
  = _readline_loop (acc +:+ string_of_list_byte bs) tail.
Proof.
  revert acc. induction bs as [| b bs IH]; intros acc Hplain Hno.
  - change (string_of_list_byte []) with "". rewrite string_app_empty_r.
    reflexivity.
  - cbn [forallb] in Hplain. apply andb_prop in Hplain as [Hb Hbs].
    rewrite string_of_list_byte_cons in *.
    cbn [app]. rewrite (readline_loop_plain _ _ _ Hb).
    destruct (String.eqb_spec (acc +:+ String (ascii_of_byte b) "") "INFO1")
      as [Heq | Hne].
    + exfalso. apply (Hno (String (ascii_of_byte b) "") (string_of_list_byte bs));
        [reflexivity | discriminate | exact Heq].
    + rewrite (IH _ Hbs).
      * rewrite string_app_assoc. reflexivity.
      * intros t u Ht Hnt. rewrite string_app_assoc.
        apply (Hno (String (ascii_of_byte b) t) u); [| discriminate].
        rewrite Ht. reflexivity.
Qed.

Lemma no_INFO1_prefix (s : string) :
  String.prefix "INFO1" s = false →
  ∀ t u : string, s = t +:+ u → t ≠ "" → "" +:+ t ≠ "INFO1".
Proof.
  intros Hp t u Hs Hnt Heq. change ("" +:+ t) with t in Heq. subst t s.
  destruct u; vm_compute in Hp; discriminate Hp.
Qed.

Lemma high_byte_facts (b : byte) :
  (128 <=? Byte.to_N b)%N = true →
  Byte.eqb b x0d = false ∧ Byte.eqb b x00 = false ∧
  decode b = inl (UnicodeDecodeError b).
Proof.
  destruct b; vm_compute; intros H; first [discriminate H | repeat split].
Qed.

(** X7: a frame of appended bytes (one-byte code points, none of them the
    terminator or null) whose text does not begin with ['INFO1'], followed
    by a carriage return, is returned as its text, byte for byte, and
    exactly what follows the carriage return is left unread. *)
Theorem readline_returns_plain_frame (bs rest : list byte) :
  forallb plain_byte bs = true →
  String.prefix "INFO1" (string_of_list_byte bs) = false →
  _readline (bs ++ x0d :: rest) = Line (string_of_list_byte bs) rest.
Proof.
  intros Hplain Hpre. unfold _readline.
  rewrite (readline_loop_plain_prefix bs "" (x0d :: rest) Hplain
             (no_INFO1_prefix _ Hpre)).
  reflexivity.
Qed.

Lemma readline_returns_plain_frame_witness :
  _readline (["O"%byte; "K"%byte; "0"%byte; "7"%byte] ++ x0d :: ["P"%byte])
  = Line "OK07" ["P"%byte].
Proof.
  apply (readline_returns_plain_frame
           ["O"%byte; "K"%byte; "0"%byte; "7"%byte] ["P"%byte]); reflexivity.
Defined.

(** X8: a byte of 0x80 or above, met before a line is complete, makes
    [_readline] raise [UnicodeDecodeError], and the exception ends the loop
    of [run]: the thread object is left as it was and no byte after that
    one is read, however many frames follow. *)
Theorem readline_high_byte_ends_thread
    (bs rest : list byte) (b : byte) (fuel : nat) (th : OptomaThread) :
  forallb plain_byte bs = true →
  String.prefix "INFO1" (string_of_list_byte bs) = false →
  (128 <=? Byte.to_N b)%N = true →
  _readline (bs ++ b :: rest) = Raised (UnicodeDecodeError b) ∧
  run fuel th (bs ++ b :: rest) = (th, Raised (UnicodeDecodeError b)).
Proof.
  intros Hplain Hpre Hb.
  assert (Hread : _readline (bs ++ b :: rest) = Raised (UnicodeDecodeError b)).
  { unfold _readline.
    rewrite (readline_loop_plain_prefix bs "" (b :: rest) Hplain
               (no_INFO1_prefix _ Hpre)).
    destruct (high_byte_facts b Hb) as (Hd & H0 & Hdec).
    cbn [_readline_loop]. rewrite Hd, H0, Hdec. reflexivity. }
  split; [exact Hread |].
  destruct fuel; cbn [run]; rewrite Hread; reflexivity.
Qed.

Lemma readline_high_byte_ends_thread_witness :
  run 5 OptomaThread_init
    (["O"%byte; "K"%byte] ++ xff :: [x0d; "P"%byte; x0d])
  = (OptomaThread_init, Raised (UnicodeDecodeError xff)).
Proof.
  apply (readline_high_byte_ends_thread
           ["O"%byte; "K"%byte] [x0d; "P"%byte; x0d] xff 5 OptomaThread_init);
    reflexivity.
Defined.

Lemma run_fuel_enough (fuel : nat) (th : OptomaThread) (input : list byte) :
  (List.length input ≤ fuel)%nat → is_Line (snd (run fuel th input)) = false.
Proof.
  revert th input. induction fuel as [| fuel IH]; intros th input Hlen.
  - destruct input; [reflexivity | cbn in Hlen; lia].
  - cbn [run]. destruct (_readline input) as [line rest | |] eqn:Hread;
      [| reflexivity | reflexivity].
    apply IH. destruct (readline_loop_consumes input "" line rest Hread)
      as (consumed & Hne & ->).
    rewrite List.length_app in Hlen. destruct consumed; [contradiction |].
    cbn in Hlen. lia.
Qed.

Lemma run_fuel_stable (fuel : nat) (th : OptomaThread) (input : list byte) :
  is_Line (snd (run fuel th input)) = false →
  run (S fuel) th input = run fuel th input.
Proof.
  revert th input. induction fuel as [| fuel IH]; intros th input Hend.
  - cbn [run] in *. destruct (_readline input); [discriminate Hend | reflexivity ..].
  - cbn [run] in Hend. cbn [run].
    destruct (_readline input) as [line rest | |]; [| reflexivity ..].
    apply (IH _ _ Hend).
Qed.

(** X9: the loop of [run] ends only in a blocked read or in an exception:
    unrolled as many times as the input has bytes it has ended in one of
    the two, and unrolling it further changes nothing. *)
Theorem run_ends_blocked_or_raised
    (fuel : nat) (th : OptomaThread) (input : list byte) :
  (List.length input ≤ fuel)%nat →
  is_Line (snd (run fuel th input)) = false ∧
  run fuel th input = run (List.length input) th input.
Proof.
  intros Hlen. split; [apply run_fuel_enough; exact Hlen |].
  induction Hlen as [| fuel Hle IH]; [reflexivity |].
  rewrite run_fuel_stable; [exact IH |].
  apply run_fuel_enough. exact Hle.
Qed.

Lemma run_ends_blocked_or_raised_witness :
  run 50 OptomaThread_init
    (list_byte_of_string "INFO1OK1" ++ [x0d; "I"%byte])
  = ({| _lastline := Some "OK1"; _recv_event := true; notified := ["INFO1"] |},
     Blocked "I").
Proof.
  destruct (run_ends_blocked_or_raised 50 OptomaThread_init
              (list_byte_of_string "INFO1OK1" ++ [x0d; "I"%byte]))
    as (_ & Heq).
  - vm_compute. lia.
  - rewrite Heq. reflexivity.
Defined.

Lemma run_dispatch_channels (line : string) (th : OptomaThread) :
  (∃ added : list string,
     notified (run_dispatch line th) = notified th ++ added ∧
     Forall (λ l, is_event_frame l = true) added) ∧
  (_recv_event th = true → _recv_event (run_dispatch line th) = true) ∧
  (_lastline (run_dispatch line th) = _lastline th ∨
   ∃ l : string,
     _lastline (run_dispatch line th) = Some l ∧
     is_event_frame l = false ∧
     _recv_event (run_dispatch line th) = true).
Proof.
  unfold run_dispatch. destruct (is_event_frame line) eqn:Hev; cbn.
  - split; [| split].
    + exists [line]. split; [reflexivity |]. repeat constructor. exact Hev.
    + intros H. exact H.
    + left. reflexivity.
  - split; [| split].
    + exists []. split; [rewrite app_nil_r; reflexivity | constructor].
    + reflexivity.
    + right. exists line. repeat split. exact Hev.
Qed.

(** X10: however far the loop of [run] gets on an input, every call of
    [notify_event] it adds is for a frame of 5 characters that begins with
    ['I'], in the order the frames came, the calls made before stay; it
    never clears the reply event; and [_lastline] is either what it was or
    a frame that is not an event frame, with the reply event set. *)
Theorem run_keeps_channels_apart
    (fuel : nat) (th : OptomaThread) (input : list byte) :
  (∃ added : list string,
     notified (fst (run fuel th input)) = notified th ++ added ∧
     Forall (λ l, is_event_frame l = true) added) ∧
  (_recv_event th = true → _recv_event (fst (run fuel th input)) = true) ∧
  (_lastline (fst (run fuel th input)) = _lastline th ∨
   ∃ l : string,
     _lastline (fst (run fuel th input)) = Some l ∧
     is_event_frame l = false ∧
     _recv_event (fst (run fuel th input)) = true).
Proof.
  revert th input. induction fuel as [| fuel IH]; intros th input.
  - cbn [run]. destruct (_readline input); cbn [fst];
      (split; [exists []; split; [rewrite app_nil_r; reflexivity | constructor] |];
       split; [intros H; exact H | left; reflexivity]).
  - cbn [run]. destruct (_readline input) as [line rest | |]; cbn [fst];
      try (split; [exists []; split; [rewrite app_nil_r; reflexivity | constructor] |];
           split; [intros H; exact H | left; reflexivity]).
    destruct (IH (run_dispatch line th) rest) as ((a2 & Hn2 & Ha2) & Hr2 & Hl2).
    destruct (run_dispatch_channels line th) as ((a1 & Hn1 & Ha1) & Hr1 & Hl1).
    split; [| split].
    + exists (a1 ++ a2). split.
      * rewrite Hn2, Hn1, <- app_assoc. reflexivity.
      * apply Forall_app. split; assumption.
    + intros H. apply Hr2, Hr1, H.
    + destruct Hl2 as [Hsame | Hset]; [| right; exact Hset].
      destruct Hl1 as [Hsame1 | (l & Hl & Hev & Hre)].
      * left. rewrite Hsame, Hsame1. reflexivity.
      * right. exists l. rewrite Hsame. repeat split; [exact Hl | exact Hev |].
        apply Hr2, Hre.
Qed.

Lemma run_keeps_channels_apart_witness :
  _recv_event
    (fst (run 9 {| _lastline := Some "P"; _recv_event := true; notified := [] |}
            (list_byte_of_string "INFO1INFO2" ++ [x0d])))
  = true.
Proof.
  destruct (run_keeps_channels_apart 9
              {| _lastline := Some "P"; _recv_event := true; notified := [] |}
              (list_byte_of_string "INFO1INFO2" ++ [x0d]))
    as (_ & Hkeep & _).
  apply Hkeep. reflexivity.
Defined.

(** X11: the reply channel holds one frame. When two frames that are not
    event frames arrive before [get_response] is called, the first is
    overwritten: [get_response] returns the second and clears the event, and
    the next [get_response] blocks although two frames arrived. *)
Theorem reply_slot_keeps_latest (l1 l2 : string) (th : OptomaThread) :
  is_event_frame l1 = false →
  is_event_frame l2 = false →
  get_response (run_dispatch l2 (run_dispatch l1 th))
  = Some (Some l2,
          {| _lastline := Some l2; _recv_event := false; notified := notified th |}) ∧
  get_response
    {| _lastline := Some l2; _recv_event := false; notified := notified th |}
  = None.
Proof.
  intros H1 H2. unfold run_dispatch. rewrite H1, H2. split; reflexivity.
Qed.

Lemma reply_slot_keeps_latest_witness :
  get_response (run_dispatch "OK1" (run_dispatch "F" OptomaThread_init))
  = Some (Some "OK1",
          {| _lastline := Some "OK1"; _recv_event := false; notified := [] |}) ∧
  get_response {| _lastline := Some "OK1"; _recv_event := false; notified := [] |}
  = None.
Proof.
  apply (reply_slot_keeps_latest "F" "OK1" OptomaThread_init); reflexivity.
Defined.

(** ** The lock, over whole calls *)

Lemma setLock_lock_class (now : float) (command : string) (p : Projector) :
  __setLock now command p
  = match lock_class command with
    | Some cls => (inr tt, locked cls now p)
    | None => (inl (NameError "ALL"), p)
    end.
Proof.
  unfold lock_class. case_bool_decide as Hp.
  - apply setLock_power. exact Hp.
  - destruct (dict_contains SOURCE_LIST command) eqn:Hs.
    + apply setLock_source. exact Hs.
    + apply setLock_unclassified; assumption.
Qed.

Lemma lock_class_has_timeout (command cls : string) :
  lock_class command = Some cls →
  cls ∈ [TURN_ON; TURN_OFF; SOURCE] ∧ dict_contains TIMEOUT_TIMES cls = true.
Proof.
  unfold lock_class. case_bool_decide as Hp.
  - intros [= <-].
    repeat (apply elem_of_cons in Hp as [-> | Hp];
            [split; [set_solver | reflexivity] |]).
    apply elem_of_nil in Hp. destruct Hp.
  - destruct (dict_contains SOURCE_LIST command); [| discriminate].
    intros [= <-]. split; [set_solver | reflexivity].
Qed.

Lemma lock_class_has_frame (command cls : string) :
  lock_class command = Some cls → is_Some (OPTOMA_COMMANDS !! command).
Proof.
  unfold lock_class. case_bool_decide as Hp.
  - intros _.
    repeat (apply elem_of_cons in Hp as [-> | Hp]; [eexists; reflexivity |]).
    apply elem_of_nil in Hp. destruct Hp.
  - destruct (dict_contains SOURCE_LIST command) eqn:Hs; [| discriminate].
    intros _. apply SOURCE_LIST_has_frame. exact Hs.
Qed.

Lemma checkLock_wf (now : float) (p : Projector) :
  lock_wf p = true →
  (__checkLock now p = (inr true, p) ∧ _isLocked p = true) ∨
  (__checkLock now p = (inr false, p) ∧ _isLocked p = false) ∨
  (__checkLock now p = (inr false, unlocked p) ∧ _isLocked p = true).
Proof.
  unfold lock_wf. intros Hwf. destruct (_isLocked p) eqn:Hl.
  - cbn [negb orb] in Hwf.
    destruct (_operation p) as [| b | cls] eqn:Ho; try discriminate Hwf.
    unfold dict_contains in Hwf. apply bool_decide_eq_true_1 in Hwf as [t Ht].
    destruct (float_gt_int (now - _timer p) t) eqn:Hgt;
      [pose proof Hgt as Hlt | pose proof Hgt as Hle].
    + right. right. split; [| reflexivity].
      apply (checkLock_expired now p cls t Hl Ho Ht Hlt).
    + left. split; [| reflexivity].
      apply (checkLock_within now p cls t Hl Ho Ht Hle).
  - right. left. split; [| reflexivity]. apply checkLock_unlocked. exact Hl.
Qed.

(** X12: on an object whose held lock, if any, records an operation of
    [TIMEOUT_TIMES], [__checkLock] never raises: it returns [True] and
    leaves the object as it was, or it returns [False] and leaves the lock
    free. It writes nothing, and the object it leaves is again of that
    kind. *)
Theorem checkLock_never_raises (now : float) (p : Projector) :
  lock_wf p = true →
  ∃ (busy : bool) (p0 : Projector),
    __checkLock now p = (inr busy, p0) ∧
    (if busy then p0 = p ∧ _isLocked p = true else _isLocked p0 = false) ∧
    _serial p0 = _serial p ∧
    lock_wf p0 = true.
Proof.
  intros Hwf.
  destruct (checkLock_wf now p Hwf) as [[Hc Hl] | [[Hc Hl] | [Hc Hl]]].
  - exists true, p. repeat split; assumption.
  - exists false, p. repeat split; assumption.
  - exists false, (unlocked p). repeat split; assumption.
Qed.

Lemma checkLock_never_raises_witness :
  ∃ (busy : bool) (p0 : Projector),
    __checkLock 61 (locked TURN_OFF 0 Projector_init) = (inr busy, p0) ∧
    (if busy
     then p0 = locked TURN_OFF 0 Projector_init ∧
          _isLocked (locked TURN_OFF 0 Projector_init) = true
     else _isLocked p0 = false) ∧
    _serial p0 = _serial (locked TURN_OFF 0 Projector_init) ∧
    lock_wf p0 = true.
Proof.
  apply (checkLock_never_raises 61 (locked TURN_OFF 0 Projector_init)).
  reflexivity.
Defined.

Lemma send_command_after_check
    (t_check t_lock : float) (command result : string) (p p0 : Projector) :
  __checkLock t_check p = (inr false, p0) →
  send_command t_check t_lock command result p
  = match lock_class command, OPTOMA_COMMANDS !! command with
    | Some cls, Some frame =>
        (inr (ack_value result), written frame (locked cls t_lock p0))
    | Some cls, None => (inl (AttributeError "encode"), locked cls t_lock p0)
    | None, _ => (inl (NameError "ALL"), p0)
    end.
Proof.
  intros Hc. unfold send_command. rewrite (bind_inr _ _ _ _ _ Hc).
  cbv iota. destruct (lock_class command) as [cls |] eqn:Hcls.
  - assert (Hs : __setLock t_lock command p0 = (inr tt, locked cls t_lock p0)).
    { rewrite setLock_lock_class, Hcls. reflexivity. }
    rewrite (bind_inr _ _ _ _ _ Hs).
    destruct (OPTOMA_COMMANDS !! command) as [frame |]; [| reflexivity].
    unfold _sendrecv, serial_write, bind, assign, ret, ack_value.
    destruct (String.eqb result "P"); [reflexivity |].
    destruct (String.eqb result "F"); reflexivity.
  - assert (Hs : __setLock t_lock command p0 = (inl (NameError "ALL"), p0)).
    { rewrite setLock_lock_class, Hcls. reflexivity. }
    rewrite (bind_inl _ _ _ _ _ Hs).
    destruct (OPTOMA_COMMANDS !! command); reflexivity.
Qed.

Lemma ack_value_range (result : string) :
  ack_value result ∈ [PyBool false; PyStr "OK"; PyStr "BUSY"; PyNone].
Proof.
  unfold ack_value. destruct (String.eqb result "P"); [set_solver |].
  destruct (String.eqb result "F"); set_solver.
Qed.

(** X13: what [send_command] can do on an object with consistent lock
    fields. It returns [False], ['OK'], ['BUSY'] or [None], or it raises
    [NameError] on the name [ALL]; it raises exactly when the lock is not
    busy and the command is neither [TURN_ON] nor [TURN_OFF] nor a key of
    [SOURCE_LIST], and then nothing has been written. It never raises
    [KeyError] or [AttributeError], and the lock fields stay consistent. *)
Theorem send_command_outcomes
    (t_check t_lock : float) (command result : string) (p : Projector) :
  lock_wf p = true →
  lock_wf (snd (send_command t_check t_lock command result p)) = true ∧
  match fst (send_command t_check t_lock command result p) with
  | inr v => v ∈ [PyBool false; PyStr "OK"; PyStr "BUSY"; PyNone]
  | inl e =>
      e = NameError "ALL" ∧
      lock_class command = None ∧
      fst (__checkLock t_check p) = inr false ∧
      _serial (snd (send_command t_check t_lock command result p)) = _serial p
  end ∧
  (lock_class command = None →
   fst (__checkLock t_check p) = inr false →
   fst (send_command t_check t_lock command result p) = inl (NameError "ALL")).
Proof.
  intros Hwf.
  destruct (checkLock_never_raises t_check p Hwf)
    as ([|] & p0 & Hc & Hb & Hser & Hwf0).
  - rewrite (send_command_busy _ _ _ _ _ _ Hc). cbn [fst snd].
    split; [exact Hwf0 |]. split; [apply elem_of_cons; left; reflexivity |].
    intros _ H. rewrite Hc in H. discriminate H.
  - rewrite (send_command_after_check _ _ _ _ _ _ Hc).
    destruct (lock_class command) as [cls |] eqn:Hcls.
    + destruct (lock_class_has_frame _ _ Hcls) as [frame Hf]. rewrite Hf.
      cbn [fst snd]. split; [| split; [apply ack_value_range | discriminate]].
      destruct (lock_class_has_timeout _ _ Hcls) as [_ Ht].
      unfold lock_wf. cbn. exact Ht.
    + destruct (OPTOMA_COMMANDS !! command); cbn [fst snd];
        (split; [exact Hwf0 |]; split;
         [repeat split; [rewrite Hc; reflexivity | exact Hser] | reflexivity]).
Qed.

Lemma send_command_outcomes_witness :
  fst (send_command 1 1 "PWR" "P" Projector_init) = inl (NameError "ALL").
Proof.
  destruct (send_command_outcomes 1 1 "PWR" "P" Projector_init eq_refl)
    as (_ & _ & Hraise).
  apply Hraise; reflexivity.
Defined.

(** Membership of a given value in a given list, and of every element of a
    given list in another. *)
Ltac in_list :=
  repeat first [apply list_elem_of_here | apply list_elem_of_further].

Ltac sublist_in H :=
  repeat (apply elem_of_cons in H as [-> | H]; [in_list |]);
  apply elem_of_nil in H; destruct H.

Lemma SOURCE_MAP_range (response : string) :
  dict_get SOURCE_MAP response
  ∈ [PyNone; PyStr "VGA"; PyStr "VIDEO"; PyStr "HDMI1"; PyStr "HDMI2";
     PyStr "COMPONENT"].
Proof.
  unfold dict_get. destruct (SOURCE_MAP !! response) as [v |] eqn:E;
    [| apply elem_of_cons; left; reflexivity].
  apply elem_of_list_to_map_2 in E. cbn [default from_option id].
  repeat (apply elem_of_cons in E as [E | E]; [inversion E; subst; set_solver |]).
  apply elem_of_nil in E. destruct E.
Qed.

Lemma get_property_try_range (command response : string) (p : Projector) :
  ∃ v : pyval,
    get_property_try command response p = (inr v, p) ∧
    ((command = "PWR" ∧ v ∈ [PyStr "on"; PyStr "off"; PyNone]) ∨
     (command = "SOURCE" ∧
      v ∈ [PyNone; PyStr "VGA"; PyStr "VIDEO"; PyStr "HDMI1"; PyStr "HDMI2";
           PyStr "COMPONENT"]) ∨
     (command ≠ "PWR" ∧ command ≠ "SOURCE" ∧ v = PyNone)).
Proof.
  unfold get_property_try.
  destruct (String.eqb_spec command "PWR") as [-> | Hpwr].
  - change (String.eqb "PWR" "SOURCE") with false.
    destruct (String.length response =? 3)%nat eqn:Hlen.
    + apply Nat.eqb_eq in Hlen.
      destruct response as [| a [| b [| c r]]]; try discriminate Hlen.
      unfold bind at 1 2, lift, str_getitem. cbn [String.get Nat.eqb Nat.pred].
      destruct (Ascii.eqb c "1");
        [eexists; split; [reflexivity | left; split; [reflexivity | set_solver]] |].
      destruct (Ascii.eqb c "0");
        eexists; (split; [reflexivity | left; split; [reflexivity | set_solver]]).
    + eexists. split; [reflexivity | left; split; [reflexivity | set_solver]].
  - destruct (String.eqb_spec command "SOURCE") as [-> | Hsrc].
    + destruct (String.length response =? 4)%nat.
      * eexists. split; [reflexivity |]. right. left.
        split; [reflexivity | apply SOURCE_MAP_range].
      * eexists. split; [reflexivity |]. right. left.
        split; [reflexivity | apply elem_of_cons; left; reflexivity].
    + eexists. split; [reflexivity |]. right. right. repeat split; assumption.
Qed.

Lemma get_property_after_check
    (now : float) (command response : string) (p p0 : Projector) :
  __checkLock now p = (inr false, p0) →
  get_property now command response p
  = match OPTOMA_COMMANDS !! command with
    | Some frame =>
        if String.eqb response "" then (inr (PyBool false), written frame p0)
        else get_property_try command response (written frame p0)
    | None => (inl (AttributeError "encode"), p0)
    end.
Proof.
  intros Hc. destruct (OPTOMA_COMMANDS !! command) as [frame |] eqn:Hf.
  - apply (get_property_free _ _ _ _ _ _ Hc Hf).
  - unfold get_property. rewrite (bind_inr _ _ _ _ _ Hc).
    destruct (get_timeout_returns command p0) as [t Ht].
    rewrite (bind_inr _ _ _ _ _ Ht). rewrite Hf. reflexivity.
Qed.

(** X14: what [get_property] can do on an object with consistent lock
    fields. It returns the Busy sentinel, [False], ['on'], ['off'], [None]
    or one of the five source names, or it raises [AttributeError]; it
    raises exactly when the lock is not busy and the command is not a key
    of [OPTOMA_COMMANDS], and then nothing has been written. It never
    takes the lock: a lock held afterwards was held before, and the object
    is then as it was. The lock fields stay consistent. *)
Theorem get_property_outcomes
    (now : float) (command response : string) (p : Projector) :
  lock_wf p = true →
  lock_wf (snd (get_property now command response p)) = true ∧
  (_isLocked (snd (get_property now command response p)) = true →
   get_property now command response p = (inr (PyStr BUSY), p)) ∧
  match fst (get_property now command response p) with
  | inr v =>
      v ∈ [PyStr BUSY; PyBool false; PyStr "on"; PyStr "off"; PyNone;
           PyStr "VGA"; PyStr "VIDEO"; PyStr "HDMI1"; PyStr "HDMI2";
           PyStr "COMPONENT"]
  | inl e =>
      e = AttributeError "encode" ∧
      OPTOMA_COMMANDS !! command = None ∧
      fst (__checkLock now p) = inr false ∧
      _serial (snd (get_property now command response p)) = _serial p
  end ∧
  (OPTOMA_COMMANDS !! command = None →
   fst (__checkLock now p) = inr false →
   fst (get_property now command response p) = inl (AttributeError "encode")).
Proof.
  intros Hwf.
  destruct (checkLock_never_raises now p Hwf)
    as ([|] & p0 & Hc & Hb & Hser & Hwf0).
  - destruct Hb as [-> Hl]. rewrite (get_property_busy _ _ _ _ _ Hc). cbn [fst snd].
    split; [exact Hwf |]. split; [reflexivity |].
    split; [apply elem_of_cons; left; reflexivity |].
    intros _ H. rewrite Hc in H. discriminate H.
  - rewrite (get_property_after_check _ _ _ _ _ Hc).
    destruct (OPTOMA_COMMANDS !! command) as [frame |] eqn:Hf.
    + destruct (String.eqb response "").
      * cbn [fst snd]. split; [unfold lock_wf; cbn; rewrite Hb; reflexivity |].
        split; [intros H; cbn in H; rewrite Hb in H; discriminate H |].
        split; [in_list | discriminate].
      * destruct (get_property_try_range command response (written frame p0))
          as (v & -> & Hv).
        cbn [fst snd]. split; [unfold lock_wf; cbn; rewrite Hb; reflexivity |].
        split; [intros H; cbn in H; rewrite Hb in H; discriminate H |].
        split; [| discriminate].
        destruct Hv as [[_ Hv] | [[_ Hv] | (_ & _ & ->)]];
          [sublist_in Hv | sublist_in Hv | in_list].
    + cbn [fst snd]. split; [exact Hwf0 |].
      split; [intros H; rewrite Hb in H; discriminate H |].
      split; [| reflexivity].
      repeat split; [rewrite Hc; reflexivity | exact Hser].
Qed.

Lemma get_property_outcomes_witness :
  fst (get_property 1 "FOCUS" "OK1" Projector_init) = inl (AttributeError "encode").
Proof.
  destruct (get_property_outcomes 1 "FOCUS" "OK1" Projector_init eq_refl)
    as (_ & _ & _ & Hraise).
  apply Hraise; reflexivity.
Defined.

(** X15: [get_property] decodes the replies to ['PWR'] and ['SOURCE'] only.
    For any other command, the other keys of [OPTOMA_COMMANDS] such as
    ['DISPLAY_MODE'] included, on a lock that is not busy every non-empty
    reply gives [None] and the empty reply gives [False]: the text of the
    reply is never returned. *)
Theorem get_property_other_commands_decode_nothing
    (now : float) (command response frame : string) (p p0 : Projector) :
  __checkLock now p = (inr false, p0) →
  OPTOMA_COMMANDS !! command = Some frame →
  command ≠ "PWR" →
  command ≠ "SOURCE" →
  get_property now command response p
  = (inr (if String.eqb response "" then PyBool false else PyNone),
     written frame p0).
Proof.
  intros Hc Hf Hpwr Hsrc. rewrite (get_property_free _ _ _ _ _ _ Hc Hf).
  destruct (String.eqb response ""); [reflexivity |].
  destruct (get_property_try_range command response (written frame p0))
    as (v & -> & [[H _] | [[H _] | (_ & _ & ->)]]);
    [contradiction | contradiction | reflexivity].
Qed.

Lemma get_property_other_commands_decode_nothing_witness :
  get_property 1 "DISPLAY_MODE" "OK3" Projector_init
  = (inr PyNone, written ("~00123 1" +:+ CR) Projector_init).
Proof.
  apply (get_property_other_commands_decode_nothing
           1 "DISPLAY_MODE" "OK3" ("~00123 1" +:+ CR)
           Projector_init Projector_init);
    [reflexivity | reflexivity | discriminate | discriminate].
Defined.

Lemma checkLock_serial (now : float) (p : Projector) :
  _serial (snd (__checkLock now p)) = _serial p.
Proof.
  unfold __checkLock, bind, self, lift. destruct (_isLocked p); [| reflexivity].
  destruct (dict_getitem TIMEOUT_TIMES (_operation p)) as [e | t]; [reflexivity |].
  destruct (float_gt_int (now - _timer p) t); reflexivity.
Qed.

(** X16: a call of [send_command] or of [get_property] leaves the frames
    written so far in place and adds at most one frame after them, the
    frame of its command in [OPTOMA_COMMANDS]; this holds for every object,
    command and reply, also when the call raises. *)
Theorem calls_write_at_most_their_frame
    (t_check t_lock : float) (command reply : string) (p : Projector) :
  (_serial (snd (send_command t_check t_lock command reply p)) = _serial p ∨
   ∃ frame : string,
     OPTOMA_COMMANDS !! command = Some frame ∧
     _serial (snd (send_command t_check t_lock command reply p))
     = _serial p ++ [frame]) ∧
  (_serial (snd (get_property t_check command reply p)) = _serial p ∨
   ∃ frame : string,
     OPTOMA_COMMANDS !! command = Some frame ∧
     _serial (snd (get_property t_check command reply p))
     = _serial p ++ [frame]).
Proof.
  pose proof (checkLock_serial t_check p) as Hser.
  destruct (__checkLock t_check p) as [[e | [|]] p0] eqn:Hc; cbn [snd] in Hser.
  - unfold send_command, get_property. rewrite !(bind_inl _ _ _ _ _ Hc).
    split; left; exact Hser.
  - rewrite (send_command_busy _ _ _ _ _ _ Hc), (get_property_busy _ _ _ _ _ Hc).
    split; left; exact Hser.
  - rewrite (send_command_after_check _ _ _ _ _ _ Hc),
      (get_property_after_check _ _ _ _ _ Hc).
    destruct (OPTOMA_COMMANDS !! command) as [frame |] eqn:Hf.
    + split.
      * destruct (lock_class command); [| left; exact Hser].
        right. exists frame. split; [reflexivity |]. cbn. rewrite Hser. reflexivity.
      * right. exists frame. split; [reflexivity |].
        destruct (String.eqb reply ""); [cbn; rewrite Hser; reflexivity |].
        destruct (get_property_try_returns command reply (written frame p0))
          as (v & -> & _).
        cbn. rewrite Hser. reflexivity.
    + split; [| left; exact Hser].
      destruct (lock_class command); left; exact Hser.
Qed.

(** X17: the lock expires lazily. On an object whose lock is held for a
    class of [TIMEOUT_TIMES], a call of [get_property] or [send_command]
    for which the float difference [time.time() - self._timer], as the
    program computes it, is greater than the timeout does exactly what it
    does on the same object after [__unLock]. *)
Theorem expired_lock_behaves_unlocked
    (p : Projector) (cls : string) (timeout : Z) (now t_lock : float)
    (command reply : string) :
  _isLocked p = true →
  _operation p = PyStr cls →
  TIMEOUT_TIMES !! cls = Some timeout →
  float_gt_int (now - _timer p) timeout = true →
  get_property now command reply p
  = get_property now command reply (unlocked p) ∧
  send_command now t_lock command reply p
  = send_command now t_lock command reply (unlocked p).
Proof.
  intros Hl Ho Ht Hlate.
  pose proof (checkLock_expired now p cls timeout Hl Ho Ht Hlate) as Hc.
  pose proof (checkLock_unlocked now (unlocked p) eq_refl) as Hc'.
  split.
  - rewrite (get_property_after_check _ _ _ _ _ Hc),
      (get_property_after_check _ _ _ _ _ Hc'). reflexivity.
  - rewrite (send_command_after_check _ _ _ _ _ _ Hc),
      (send_command_after_check _ _ _ _ _ _ Hc'). reflexivity.
Qed.

Lemma expired_lock_behaves_unlocked_witness :
  get_property 3 "VGA" "P" (locked SOURCE 0 Projector_init)
  = get_property 3 "VGA" "P" (unlocked (locked SOURCE 0 Projector_init)) ∧
  send_command 3 3 "VGA" "P" (locked SOURCE 0 Projector_init)
  = send_command 3 3 "VGA" "P" (unlocked (locked SOURCE 0 Projector_init)).
Proof.
  apply (expired_lock_behaves_unlocked
           (locked SOURCE 0 Projector_init) SOURCE 2%Z 3 3); reflexivity.
Defined.

(** X18: the lock is taken whatever the projector answers. When the lock is
    not busy and the command is [TURN_ON], [TURN_OFF] or a key of
    [SOURCE_LIST], [send_command] leaves the lock held for the class of the
    command for every acknowledgment, ['F'] included; as long as the float
    difference of the clock reading and the time of the lock, as
    [__checkLock] computes it, is not greater than the timeout of that
    class, every [get_property] then returns the Busy sentinel and every
    [send_command] returns [False], and neither writes. *)
Theorem accepted_command_opens_busy_window
    (p p0 : Projector) (t_check t_lock : float) (command cls result : string) :
  __checkLock t_check p = (inr false, p0) →
  lock_class command = Some cls →
  ∃ (frame : string) (timeout : Z),
    OPTOMA_COMMANDS !! command = Some frame ∧
    TIMEOUT_TIMES !! cls = Some timeout ∧
    send_command t_check t_lock command result p
    = (inr (ack_value result), written frame (locked cls t_lock p0)) ∧
    ∀ (now t_lock2 : float) (command2 reply2 : string),
      float_gt_int (now - t_lock) timeout = false →
      get_property now command2 reply2 (written frame (locked cls t_lock p0))
      = (inr (PyStr BUSY), written frame (locked cls t_lock p0)) ∧
      send_command now t_lock2 command2 reply2
        (written frame (locked cls t_lock p0))
      = (inr (PyBool false), written frame (locked cls t_lock p0)).
Proof.
  intros Hc Hcls.
  destruct (lock_class_has_frame _ _ Hcls) as [frame Hf].
  destruct (lock_class_has_timeout _ _ Hcls) as [_ Ht].
  unfold dict_contains in Ht. apply bool_decide_eq_true_1 in Ht as [timeout Ht].
  exists frame, timeout. split; [exact Hf |]. split; [exact Ht |]. split.
  - rewrite (send_command_after_check _ _ _ _ _ _ Hc), Hcls, Hf. reflexivity.
  - intros now t_lock2 command2 reply2 Hle.
    assert (Hbusy : __checkLock now (written frame (locked cls t_lock p0))
                    = (inr true, written frame (locked cls t_lock p0))).
    { apply (checkLock_within _ _ cls timeout); [reflexivity .. | exact Ht | exact Hle]. }
    split; [apply get_property_busy | apply send_command_busy]; exact Hbusy.
Qed.

Lemma accepted_command_opens_busy_window_witness :
  ∃ (frame : string) (timeout : Z),
    OPTOMA_COMMANDS !! TURN_OFF = Some frame ∧
    TIMEOUT_TIMES !! TURN_OFF = Some timeout ∧
    send_command 10 10 TURN_OFF "F" Projector_init
    = (inr (ack_value "F"), written frame (locked TURN_OFF 10 Projector_init)) ∧
    ∀ (now t_lock2 : float) (command2 reply2 : string),
      float_gt_int (now - 10) timeout = false →
      get_property now command2 reply2
        (written frame (locked TURN_OFF 10 Projector_init))
      = (inr (PyStr BUSY), written frame (locked TURN_OFF 10 Projector_init)) ∧
      send_command now t_lock2 command2 reply2
        (written frame (locked TURN_OFF 10 Projector_init))
      = (inr (PyBool false), written frame (locked TURN_OFF 10 Projector_init)).
Proof.
  apply (accepted_command_opens_busy_window
           Projector_init Projector_init 10 10 TURN_OFF TURN_OFF "F");
    reflexivity.
Defined.

(** X19: [__get_timeout] returns for every command and never raises: 40
    for [TURN_ON], 60 for [TURN_OFF] and 2 for every other command, a key of
    [TIMEOUT_TIMES] or not; it leaves the object as it was. *)
Theorem get_timeout_values (command : string) (p : Projector) :
  __get_timeout command p
  = (inr (if String.eqb command TURN_ON then 40%Z
          else if String.eqb command TURN_OFF then 60%Z
          else 2%Z),
     p).
Proof.
  unfold __get_timeout, dict_contains, lift, dict_getitem.
  case_bool_decide as H.
  - destruct H as [t Ht]. rewrite Ht. pose proof Ht as Hin.
    apply elem_of_list_to_map_2 in Hin.
    repeat (apply elem_of_cons in Hin as [Hin | Hin];
            [inversion Hin; subst; reflexivity |]).
    apply elem_of_nil in Hin. destruct Hin.
  - destruct (String.eqb_spec command TURN_ON) as [-> | _].
    { exfalso. apply H. eexists. reflexivity. }
    destruct (String.eqb_spec command TURN_OFF) as [-> | _].
    { exfalso. apply H. eexists. reflexivity. }
    reflexivity.
Qed.

(** X20: every source name [get_property] returns is a command
    [send_command] accepts as a source selection: when [get_property]
    returns a string for the command ['SOURCE'], other than the Busy
    sentinel, that string is a key of [SOURCE_LIST], [__setLock] records the
    class [SOURCE] for it, and it has a frame in [OPTOMA_COMMANDS]. *)
Theorem reported_source_is_selectable
    (now : float) (response name : string) (p : Projector) :
  fst (get_property now SOURCE response p) = inr (PyStr name) →
  name ≠ BUSY →
  dict_contains SOURCE_LIST name = true ∧
  lock_class name = Some SOURCE ∧
  is_Some (OPTOMA_COMMANDS !! name).
Proof.
  intros Hget Hname.
  destruct (__checkLock now p) as [[e | [|]] p0] eqn:Hc.
  - unfold get_property in Hget. rewrite (bind_inl _ _ _ _ _ Hc) in Hget.
    discriminate Hget.
  - rewrite (get_property_busy _ _ _ _ _ Hc) in Hget. cbn [fst] in Hget.
    inversion Hget; subst. contradiction.
  - rewrite (get_property_after_check _ _ _ _ _ Hc) in Hget.
    change (OPTOMA_COMMANDS !! SOURCE) with (Some ("~00121 1" +:+ CR)) in Hget.
    cbv iota in Hget.
    destruct (String.eqb response ""); [discriminate Hget |].
    destruct (get_property_try_range SOURCE response
                (written ("~00121 1" +:+ CR) p0))
      as (v & Hv & [[H _] | [[_ Hin] | (_ & H & _)]]);
      [discriminate H | | contradiction].
    rewrite Hv in Hget. cbn [fst] in Hget. inversion Hget; subst v.
    repeat (apply elem_of_cons in Hin as [Hin | Hin];
            [first [discriminate Hin
                   | inversion Hin; subst name; repeat split; eexists; reflexivity] |]).
    apply elem_of_nil in Hin. destruct Hin.
Qed.

Lemma reported_source_is_selectable_witness :
  dict_contains SOURCE_LIST "HDMI2" = true ∧
  lock_class "HDMI2" = Some SOURCE ∧
  is_Some (OPTOMA_COMMANDS !! "HDMI2").
Proof.
  apply (reported_source_is_selectable 0 "OK08" "HDMI2" Projector_init).
  - reflexivity.
  - discriminate.
Defined.
